(** * authentik Kerberos source: session management, verified

    Shallow embedding of [authentik/sources/kerberos/models.py]:
    the [KerberosSource] model with its krb5.conf scope
    ([Krb5ConfContext]), credential resolution ([_kadmin_init]), the
    process-wide connection table ([connection]), the sync lock
    ([sync_lock]) and the health check ([check_connection]).

    Python statements that touch [os.environ], the scratch directory,
    the class attribute [_kadmin_connections] or the kadmin library are
    written in a state-and-exception monad over an explicit [World]. *)

From Stdlib Require Import ZArith Lia.
From stdpp Require Import base option gmap strings list pretty.

Local Open Scope string_scope.

(** ** The Python fragment the module relies on *)

Module Py.

(** Exceptions that the modelled code can raise. [KadminError] is
    [kadmin.Error]; it carries what [str(exc)] renders. *)
Inductive Exn : Type :=
| KeyError (key : string)
| AttributeError (attr : string)
| BinasciiError
| KadminError (msg : string).

Inductive Result (A : Type) : Type :=
| Return (a : A)
| Raise (e : Exn).
Arguments Return {A} a.
Arguments Raise {A} e.

(** Truth value of a [str]: only the empty string is falsy. *)
Definition truthy (s : string) : bool :=
  match s with
  | EmptyString => false
  | String _ _ => true
  end.

(** Truth value of a [str | None]. *)
Definition truthy_opt (o : option string) : bool :=
  match o with
  | None => false
  | Some s => truthy s
  end.

(** [sub in s] for strings. *)
Fixpoint startswith (sub s : string) : bool :=
  match sub, s with
  | EmptyString, _ => true
  | String a sub', String b s' => if decide (a = b) then startswith sub' s' else false
  | String _ _, EmptyString => false
  end.

Fixpoint str_in (sub s : string) : bool :=
  startswith sub s ||
  match s with
  | EmptyString => false
  | String _ s' => str_in sub s'
  end.

(** Values stored in the status report of the health check. *)
Inductive Val : Type :=
| VStr (s : string)
| VBool (b : bool).

(** [pathlib.Path] as its sequence of parts; [str(path)] joins them. *)
Definition Path : Type := list string.

Definition div (p : Path) (part : string) : Path := (p ++ [part])%list.

Fixpoint str_path (p : Path) : string :=
  match p with
  | [] => ""
  | [part] => part
  | part :: rest => part +:+ "/" +:+ str_path rest
  end.

(** The directories [mkdir(parents=True)] makes sure exist: the path
    itself and every ancestor. *)
Fixpoint ancestors (done : Path) (todo : Path) : list string :=
  match todo with
  | [] => []
  | part :: rest =>
      str_path (done ++ [part])%list :: ancestors (done ++ [part])%list rest
  end.

Inductive FileContent : Type :=
| Text (s : string)
| Bytes (b : list Byte.byte).

End Py.
Import Py.

Notation "p // part" := (Py.div p part) (at level 40, left associativity).

(** ** The kadmin library, as seen from this module *)

(** A live [kadmin.KAdmin] object. Object identity is the position in
    the call log of the authentication that created it. *)
Record KAdmin : Type := { kadm_id : nat }.

(** The calls the module makes. The [init_with_*] functions also take
    a dict of database arguments, always [{}] here and left out. *)
Inductive KadminCall : Type :=
| InitWithPassword (principal password realm : string)
| InitWithKeytab (principal keytab realm : string)
| InitWithCcache (principal ccache realm : string)
| PrincipalExists (session : KAdmin) (principal : string).

(** What the library sees when it is called: the call, and the
    krb5.conf path [KRB5_CONFIG] holds at that moment. *)
Record KadminEvent : Type := {
  ev_call : KadminCall;
  ev_krb5_config : option string;
}.

(** ** Process state *)

Record World : Type := {
  (** [os.environ] *)
  environ : gmap string string;
  (** [tempfile.gettempdir()] *)
  tempdir : string;
  (** the scratch filesystem *)
  fs_dirs : gset string;
  fs_files : gmap string FileContent;
  (** [KerberosSource._kadmin_connections], shared by all instances *)
  _kadmin_connections : gmap string (option KAdmin);
  (** every call made to the kadmin library so far *)
  kadmin_log : list KadminEvent;
  (** how the remote realm answers: [None] is success, [Some msg] is
      [kadmin.Error(msg)]; the answer may depend on the history *)
  kdc_auth : list KadminEvent → KadminEvent → option string;
  kdc_principal_exists : list KadminEvent → KadminEvent → string + bool;
  (** [django.db.connection.schema_name] *)
  schema_name : string;
  (** [CONFIG.get_int] *)
  CONFIG_get_int : string → Z;
}.

Definition with_environ (f : gmap string string → gmap string string) (w : World) : World :=
  {| environ := f (environ w); tempdir := tempdir w;
     fs_dirs := fs_dirs w; fs_files := fs_files w;
     _kadmin_connections := _kadmin_connections w;
     kadmin_log := kadmin_log w;
     kdc_auth := kdc_auth w; kdc_principal_exists := kdc_principal_exists w;
     schema_name := schema_name w; CONFIG_get_int := CONFIG_get_int w |}.

Definition with_fs_dirs (f : gset string → gset string) (w : World) : World :=
  {| environ := environ w; tempdir := tempdir w;
     fs_dirs := f (fs_dirs w); fs_files := fs_files w;
     _kadmin_connections := _kadmin_connections w;
     kadmin_log := kadmin_log w;
     kdc_auth := kdc_auth w; kdc_principal_exists := kdc_principal_exists w;
     schema_name := schema_name w; CONFIG_get_int := CONFIG_get_int w |}.

Definition with_fs_files (f : gmap string FileContent → gmap string FileContent)
    (w : World) : World :=
  {| environ := environ w; tempdir := tempdir w;
     fs_dirs := fs_dirs w; fs_files := f (fs_files w);
     _kadmin_connections := _kadmin_connections w;
     kadmin_log := kadmin_log w;
     kdc_auth := kdc_auth w; kdc_principal_exists := kdc_principal_exists w;
     schema_name := schema_name w; CONFIG_get_int := CONFIG_get_int w |}.

Definition with_connections
    (f : gmap string (option KAdmin) → gmap string (option KAdmin))
    (w : World) : World :=
  {| environ := environ w; tempdir := tempdir w;
     fs_dirs := fs_dirs w; fs_files := fs_files w;
     _kadmin_connections := f (_kadmin_connections w);
     kadmin_log := kadmin_log w;
     kdc_auth := kdc_auth w; kdc_principal_exists := kdc_principal_exists w;
     schema_name := schema_name w; CONFIG_get_int := CONFIG_get_int w |}.

Definition with_kadmin_log (f : list KadminEvent → list KadminEvent) (w : World) : World :=
  {| environ := environ w; tempdir := tempdir w;
     fs_dirs := fs_dirs w; fs_files := fs_files w;
     _kadmin_connections := _kadmin_connections w;
     kadmin_log := f (kadmin_log w);
     kdc_auth := kdc_auth w; kdc_principal_exists := kdc_principal_exists w;
     schema_name := schema_name w; CONFIG_get_int := CONFIG_get_int w |}.

(** ** The monad: state over [World], with Python exceptions *)

Definition M (A : Type) : Type := World → Result A * World.

Definition ret {A} (a : A) : M A := fun w => (Return a, w).

Definition raise {A} (e : Exn) : M A := fun w => (Raise e, w).

Definition bind {A B} (m : M A) (k : A → M B) : M B :=
  fun w =>
    match m w with
    | (Return a, w') => k a w'
    | (Raise e, w') => (Raise e, w')
    end.

Notation "x <- m ;; k" := (bind m (fun x => k))
  (at level 20, m at level 99, k at level 200, only parsing).

Definition gets {A} (f : World → A) : M A := fun w => (Return (f w), w).

Definition modify (f : World → World) : M unit := fun w => (Return tt, f w).

(** [try: body / except kadmin.Error as exc: handler(str(exc))]. Any
    other exception passes through. *)
Definition try_except_kadmin {A} (body : M A) (handler : string → M A) : M A :=
  fun w =>
    match body w with
    | (Raise (KadminError msg), w') => handler msg w'
    | other => other
    end.

(** [with cm: body], for a context manager whose [__exit__] returns
    [None]: [__exit__] runs on every way out of the body, an exception
    of the body is not swallowed, and an exception raised by
    [__exit__] itself replaces whatever the body produced. An
    exception in [__enter__] skips both body and [__exit__]. *)
Definition with_stmt {C A} (enter : M C) (exit : C → M unit) (body : M A) : M A :=
  fun w =>
    match enter w with
    | (Raise e, w1) => (Raise e, w1)
    | (Return cm, w1) =>
        match body w1 with
        | (r, w2) =>
            match exit cm w2 with
            | (Raise e, w3) => (Raise e, w3)
            | (Return _, w3) => (r, w3)
            end
        end
    end.

(** *** Primitives on the world *)

Definition KRB5_CONFIG : string := "KRB5_CONFIG".

(** [os.environ.get(key, None)] *)
Definition environ_get (key : string) : M (option string) :=
  gets (fun w => environ w !! key).

(** [os.environ[key] = value] *)
Definition environ_set (key value : string) : M unit :=
  modify (with_environ (insert key value)).

(** [del os.environ[key]]: a missing key is a [KeyError]. *)
Definition environ_del (key : string) : M unit :=
  fun w =>
    match environ w !! key with
    | Some _ => (Return tt, with_environ (delete key) w)
    | None => (Raise (KeyError key), w)
    end.

(** [path.mkdir(parents=True, exist_ok=True)]. The scratch directory
    is taken to be writable: creating directories and writing files
    always succeeds. *)
Definition mkdir_parents (p : Path) : M unit :=
  modify (with_fs_dirs (fun d => d ∪ list_to_set (ancestors [] p))).

(** [path.write_text(data)] and [path.write_bytes(data)] *)
Definition write_file (p : Path) (c : FileContent) : M unit :=
  modify (with_fs_files (insert (str_path p) c)).

(** A call into the kadmin library that opens a session. The call is
    logged; on success a fresh [KAdmin] object is returned, and the
    only way to fail is [kadmin.Error]. *)
Definition kadmin_init (c : KadminCall) : M KAdmin :=
  fun w =>
    let ev := {| ev_call := c; ev_krb5_config := environ w !! KRB5_CONFIG |} in
    let w' := with_kadmin_log (fun l => (l ++ [ev])%list) w in
    match kdc_auth w (kadmin_log w) ev with
    | None => (Return {| kadm_id := length (kadmin_log w) |}, w')
    | Some msg => (Raise (KadminError msg), w')
    end.

(** [kadm.principal_exists(principal)] *)
Definition principal_exists (kadm : KAdmin) (principal : string) : M bool :=
  fun w =>
    let ev := {| ev_call := PrincipalExists kadm principal;
                 ev_krb5_config := environ w !! KRB5_CONFIG |} in
    let w' := with_kadmin_log (fun l => (l ++ [ev])%list) w in
    match kdc_principal_exists w (kadmin_log w) ev with
    | inr b => (Return b, w')
    | inl msg => (Raise (KadminError msg), w')
    end.

(** ** models.py *)

(** [redis.lock.Lock(client, name=..., timeout=...)]; the client handle
    plays no part in what is proved and is left out. *)
Record Lock : Type := {
  lock_name : string;
  lock_timeout : Z;
}.

Section KerberosSource.

(** The primary key comes from the base class [Source], which lives
    outside this module; all the code does with it is [str(self.pk)]. *)
Context {PK : Type} (str_pk : PK → string).

(** [base64.b64decode]: the decoded bytes, or [None] for
    [binascii.Error]. *)
Context (b64decode : string → option (list Byte.byte)).

(** class KerberosSource(Source): [pk] and [slug] are inherited, the
    rest are the fields the class declares. *)
Record KerberosSource : Type := {
  pk : PK;
  slug : string;
  realm : string;
  krb5_conf : string;
  password_login_enabled : bool;
  sync_users : bool;
  sync_guess_email : bool;
  sync_users_password : bool;
  sync_principal : string;
  sync_password : string;
  sync_keytab : string;
  sync_ccache : string;
}.

(** The text attributes an instance carries, by name: the inherited
    slug and the text fields declared above. There is a [sync_keytab]
    among them and no [keytab]. *)
Definition text_attrs (self : KerberosSource) : list (string * string) :=
  [ ("slug", slug self);
    ("realm", realm self);
    ("krb5_conf", krb5_conf self);
    ("sync_principal", sync_principal self);
    ("sync_password", sync_password self);
    ("sync_keytab", sync_keytab self);
    ("sync_ccache", sync_ccache self) ].

(** [self.<name>] for a name that is not one of the projections
    above: Python raises [AttributeError] when the lookup fails. *)
Definition getattr (self : KerberosSource) (name : string) : M string :=
  match (list_to_map (text_attrs self) : gmap string string) !! name with
  | Some v => ret v
  | None => raise (AttributeError name)
  end.

Definition krb5_conf_path (self : KerberosSource) : M (option string) :=
  if negb (truthy (krb5_conf self)) then ret None
  else
    tmp <- gets tempdir ;;
    let conf_dir := [tmp] // "authentik" // "sources" // "kerberos" // str_pk (pk self) in
    _ <- mkdir_parents conf_dir ;;
    let conf_path := conf_dir // "krb5.conf" in
    _ <- write_file conf_path (Text (krb5_conf self)) ;;
    ret (Some (str_path conf_path)).

Definition set_krb5_conf (self : KerberosSource) : M (option string) :=
  path <- krb5_conf_path self ;;
  match path with
  | None => ret None
  | Some p =>
      if negb (truthy p) then ret None
      else
        previous <- environ_get KRB5_CONFIG ;;
        _ <- environ_set KRB5_CONFIG p ;;
        ret previous
  end.

Definition restore_krb5_conf (self : KerberosSource) (previous : option string) : M unit :=
  match previous with
  | Some p => if truthy p then environ_set KRB5_CONFIG p else environ_del KRB5_CONFIG
  | None => environ_del KRB5_CONFIG
  end.

Definition _kadmin_init (self : KerberosSource) : M (option KAdmin) :=
  if negb (truthy (sync_principal self)) then ret None
  else if truthy (sync_password self) then
    kadm <- kadmin_init
      (InitWithPassword (sync_principal self) (sync_password self) (realm self)) ;;
    ret (Some kadm)
  else if truthy (sync_keytab self) then
    let keytab := sync_keytab self in
    keytab <-
      (if negb (str_in ":" keytab) then
         tmp <- gets tempdir ;;
         let keytab_dir :=
           [tmp] // "authentik" // "sources" // "kerberos" // str_pk (pk self) in
         _ <- mkdir_parents keytab_dir ;;
         let keytab_path := keytab_dir // "keytab" in
         encoded <- getattr self "keytab" ;;
         match b64decode encoded with
         | None => raise BinasciiError
         | Some data =>
             _ <- write_file keytab_path (Bytes data) ;;
             ret ("FILE:" +:+ str_path keytab_path)
         end
       else ret keytab) ;;
    kadm <- kadmin_init (InitWithKeytab (sync_principal self) keytab (realm self)) ;;
    ret (Some kadm)
  else if truthy (sync_ccache self) then
    kadm <- kadmin_init
      (InitWithCcache (sync_principal self) (sync_ccache self) (realm self)) ;;
    ret (Some kadm)
  else ret None.

Definition connection (self : KerberosSource) : M (option KAdmin) :=
  let key := str_pk (pk self) in
  cached <- gets (fun w => _kadmin_connections w !! key) ;;
  _ <- match cached with
       | Some _ => ret tt
       | None =>
           kadm <- _kadmin_init self ;;
           match kadm with
           | Some _ =>
               again <- _kadmin_init self ;;
               modify (with_connections (insert key again))
           | None => ret tt
           end
       end ;;
  gets (fun w => default None (_kadmin_connections w !! key)).

Definition sync_lock (self : KerberosSource) : M Lock :=
  schema <- gets schema_name ;;
  hours <- gets (fun w => CONFIG_get_int w "kerberos.task_timeout_hours") ;;
  ret {| lock_name :=
           "goauthentik.io/sources/kerberos/sync/" +:+ schema +:+ "-" +:+ slug self;
         lock_timeout := ((60 * 60 * hours) * 3)%Z |}.

(** class Krb5ConfContext *)
Record Krb5ConfContext : Type := {
  _source : KerberosSource;
  _previous : option string;
}.

Definition __init__ (source : KerberosSource) : Krb5ConfContext :=
  {| _source := source; _previous := None |}.

Definition __enter__ (self : Krb5ConfContext) : M Krb5ConfContext :=
  previous <- set_krb5_conf (_source self) ;;
  ret {| _source := _source self; _previous := previous |}.

Definition __exit__ (self : Krb5ConfContext) : M unit :=
  restore_krb5_conf (_source self) (_previous self).

(** [with Krb5ConfContext(source): body] *)
Definition with_Krb5ConfContext {A} (source : KerberosSource) (body : M A) : M A :=
  with_stmt (__enter__ (__init__ source)) __exit__ body.

Definition check_connection (self : KerberosSource) : M (gmap string Val) :=
  let status : gmap string Val := {[ "status" := VStr "ok" ]} in
  if negb (sync_users self) then ret status
  else
    with_Krb5ConfContext self
      (try_except_kadmin
         (kadm <- connection self ;;
          match kadm with
          | None => ret (<[ "status" := VStr "no connection" ]> status)
          | Some kadm =>
              found <- principal_exists kadm (sync_principal self) ;;
              ret (<[ "principal_exists" := VBool found ]> status)
          end)
         (fun msg => ret (<[ "status" := VStr msg ]> status))).

End KerberosSource.

(** ** Concrete sources and worlds used in examples *)

Module Examples.

(** A fresh worker process: nothing in the environment, nothing
    cached, a realm that accepts every call. *)
Definition fresh : World :=
  {| environ := ∅; tempdir := "/tmp"; fs_dirs := ∅; fs_files := ∅;
     _kadmin_connections := ∅; kadmin_log := [];
     kdc_auth := fun _ _ => None;
     kdc_principal_exists := fun _ _ => inr true;
     schema_name := "public";
     CONFIG_get_int := fun _ => 2%Z |}.

(** The same process started with [KRB5_CONFIG] set. *)
Definition with_KRB5_CONFIG (value : string) : World :=
  with_environ (insert KRB5_CONFIG value) fresh.

(** A source that authenticates with a password. *)
Definition by_password (id : Z) (conf : string) : @KerberosSource Z :=
  {| pk := id; slug := "krb-" +:+ pretty id; realm := "EXAMPLE.ORG"; krb5_conf := conf;
     password_login_enabled := false; sync_users := true;
     sync_guess_email := false; sync_users_password := true;
     sync_principal := "admin/admin"; sync_password := "hunter2";
     sync_keytab := ""; sync_ccache := "" |}.

(** A source with a keytab and, below it in precedence, a ccache. *)
Definition by_keytab (keytab : string) : @KerberosSource Z :=
  {| pk := 7%Z; slug := "krb-7"; realm := "EXAMPLE.ORG"; krb5_conf := "[libdefaults]";
     password_login_enabled := false; sync_users := true;
     sync_guess_email := false; sync_users_password := true;
     sync_principal := "admin/admin"; sync_password := "";
     sync_keytab := keytab; sync_ccache := "FILE:/tmp/krb5cc_0" |}.

(** Its keytab field holding base64("ABCD"). *)
Definition by_raw_keytab : @KerberosSource Z := by_keytab "QUJDRA==".

(** A source with sync switched on but no credentials at all. *)
Definition no_principal (conf : string) : @KerberosSource Z :=
  {| pk := 9%Z; slug := "krb-9"; realm := "EXAMPLE.ORG"; krb5_conf := conf;
     password_login_enabled := false; sync_users := true;
     sync_guess_email := false; sync_users_password := true;
     sync_principal := ""; sync_password := "";
     sync_keytab := ""; sync_ccache := "" |}.

(** A realm that is down: every call fails. *)
Definition realm_down : World :=
  {| environ := {[ KRB5_CONFIG := "/etc/krb5.conf" ]}; tempdir := "/tmp";
     fs_dirs := ∅; fs_files := ∅;
     _kadmin_connections := ∅; kadmin_log := [];
     kdc_auth := fun _ _ => Some "Cannot contact any KDC";
     kdc_principal_exists := fun _ _ => inl "Cannot contact any KDC";
     schema_name := "public";
     CONFIG_get_int := fun _ => 2%Z |}.

(** A decoder that knows the one blob of the examples. *)
Definition b64decode (s : string) : option (list Byte.byte) :=
  if decide (s = "QUJDRA==") then Some [Byte.x41; Byte.x42; Byte.x43; Byte.x44] else None.

End Examples.

(** ** Notions used in the statements *)

Section Notions.

Context {PK : Type} (str_pk : PK → string).
Implicit Types (self : @KerberosSource PK) (w : World).

(** The per-source krb5.conf path. *)
Definition conf_path_of self w : Path :=
  [tempdir w] // "authentik" // "sources" // "kerberos" // str_pk (pk self) // "krb5.conf".

(** The world right after [krb5_conf_path] wrote the file. *)
Definition conf_written self w : World :=
  with_fs_files (insert (str_path (conf_path_of self w)) (Text (krb5_conf self)))
    (with_fs_dirs
       (fun d => d ∪ list_to_set
          (ancestors [] ([tempdir w] // "authentik" // "sources" // "kerberos"
                         // str_pk (pk self))))
       w).

(** What [restore_krb5_conf] leaves in [KRB5_CONFIG]. *)
Definition restored (previous : option string) : option string :=
  match previous with
  | Some p => if truthy p then Some p else None
  | None => None
  end.

(** Spec 4.1, in its words: precedence is password > keytab >
    credential-cache > none, and without a principal there is no
    session. *)
Inductive Credential : Type :=
| UsePassword
| UseKeytab
| UseCcache
| NoSession.

Definition spec_precedence self : Credential :=
  if decide (sync_principal self = "") then NoSession
  else if decide (sync_password self ≠ "") then UsePassword
  else if decide (sync_keytab self ≠ "") then UseKeytab
  else if decide (sync_ccache self ≠ "") then UseCcache
  else NoSession.

(** The same source with another keytab, or another ccache, field. *)
Definition set_sync_keytab (v : string) self : @KerberosSource PK :=
  {| pk := pk self; slug := slug self; realm := realm self; krb5_conf := krb5_conf self;
     password_login_enabled := password_login_enabled self;
     sync_users := sync_users self; sync_guess_email := sync_guess_email self;
     sync_users_password := sync_users_password self;
     sync_principal := sync_principal self; sync_password := sync_password self;
     sync_keytab := v; sync_ccache := sync_ccache self |}.

Definition set_sync_ccache (v : string) self : @KerberosSource PK :=
  {| pk := pk self; slug := slug self; realm := realm self; krb5_conf := krb5_conf self;
     password_login_enabled := password_login_enabled self;
     sync_users := sync_users self; sync_guess_email := sync_guess_email self;
     sync_users_password := sync_users_password self;
     sync_principal := sync_principal self; sync_password := sync_password self;
     sync_keytab := sync_keytab self; sync_ccache := v |}.

(** The kadmin calls made between two worlds. *)
Definition new_events w w' : list KadminEvent :=
  drop (length (kadmin_log w)) (kadmin_log w').

(** The per-source scratch directory and the keytab file in it. *)
Definition scratch_dir_of self w : Path :=
  [tempdir w] // "authentik" // "sources" // "kerberos" // str_pk (pk self).

Definition keytab_path_of self w : Path := scratch_dir_of self w // "keytab".

(** Opening a session with one call, as [_kadmin_init] returns it. *)
Definition session_by (call : KadminCall) : M (option KAdmin) :=
  kadm <- kadmin_init call ;; ret (Some kadm).

(** The log entry of a call made in world [w]. *)
Definition event_at (call : KadminCall) w : KadminEvent :=
  {| ev_call := call; ev_krb5_config := environ w !! KRB5_CONFIG |}.

(** The calls that open a session. *)
Definition is_init (call : KadminCall) : bool :=
  match call with
  | PrincipalExists _ _ => false
  | _ => true
  end.

(** The connection table is well formed when each cached session was
    created by a call already in the log and no session sits under
    two keys. It holds in a fresh process and every operation of the
    module keeps it. *)
Definition cache_wf w : Prop :=
  (∀ key kadm, _kadmin_connections w !! key = Some (Some kadm) →
               kadm_id kadm < length (kadmin_log w)) ∧
  (∀ key1 key2 kadm,
     _kadmin_connections w !! key1 = Some (Some kadm) →
     _kadmin_connections w !! key2 = Some (Some kadm) → key1 = key2).

(** The world in which the body of [with Krb5ConfContext(self)]
    starts, and the value [__enter__] kept in [_previous]. *)
Definition entered self w : World :=
  if truthy (krb5_conf self)
  then with_environ (insert KRB5_CONFIG (str_path (conf_path_of self w))) (conf_written self w)
  else w.

Definition saved self w : option string :=
  if truthy (krb5_conf self) then environ w !! KRB5_CONFIG else None.

End Notions.

(** ** Further notions *)

(** Every key of the connection table holds a session: [None] is
    never stored, so [.get(key, None)] answering [None] means that the
    key is absent. *)
Definition cache_no_none (w : World) : Prop :=
  ∀ key cached, _kadmin_connections w !! key = Some cached → is_Some cached.

(** A fresh worker of the tenant with the given schema. *)
Definition tenant (schema : string) : World :=
  {| environ := ∅; tempdir := "/tmp"; fs_dirs := ∅; fs_files := ∅;
     _kadmin_connections := ∅; kadmin_log := [];
     kdc_auth := fun _ _ => None;
     kdc_principal_exists := fun _ _ => inr true;
     schema_name := schema;
     CONFIG_get_int := fun _ => 2%Z |}.

(** A password source with the given slug. *)
Definition slugged (name : string) : @KerberosSource Z :=
  {| pk := 1%Z; slug := name; realm := "EXAMPLE.ORG"; krb5_conf := "";
     password_login_enabled := false; sync_users := true;
     sync_guess_email := false; sync_users_password := true;
     sync_principal := "admin/admin"; sync_password := "hunter2";
     sync_keytab := ""; sync_ccache := "" |}.

(** The entry a successful [principal_exists] call leaves in the log. *)
Definition exists_event (kadm : KAdmin) (principal : string) (w : World) : KadminEvent :=
  {| ev_call := PrincipalExists kadm principal;
     ev_krb5_config := environ w !! KRB5_CONFIG |}.

(** * Proofs *)

(** ** Python helpers *)

Lemma truthy_true (s : string) : truthy s = true ↔ s ≠ "".
Proof. destruct s; simpl; split; congruence. Qed.

Lemma truthy_false (s : string) : truthy s = false ↔ s = "".
Proof. destruct s; simpl; split; congruence. Qed.

Lemma truthy_app_r (a b : string) : truthy b = true → truthy (a +:+ b) = true.
Proof. destruct a; simpl; auto. Qed.

Lemma str_path_snoc_truthy (p : Path) (part : string) :
  truthy part = true → truthy (str_path (p // part)) = true.
Proof.
  intros Hpart. unfold Py.div. induction p as [|a p IH]; simpl; [done|].
  destruct (p ++ [part])%list eqn:E.
  - destruct p; discriminate.
  - apply truthy_app_r. reflexivity.
Qed.

(** ** RealmConfigScope: [set_krb5_conf], [restore_krb5_conf], [Krb5ConfContext] *)

Section Scope.

Context {PK : Type} (str_pk : PK → string).
Implicit Types (self : @KerberosSource PK) (w : World).

Lemma set_krb5_conf_empty self w :
  krb5_conf self = "" → set_krb5_conf str_pk self w = (Return None, w).
Proof. intros E. unfold set_krb5_conf, krb5_conf_path, bind. rewrite E. reflexivity. Qed.

Lemma set_krb5_conf_nonempty self w :
  krb5_conf self ≠ "" →
  set_krb5_conf str_pk self w =
    (Return (environ w !! KRB5_CONFIG),
     with_environ (insert KRB5_CONFIG (str_path (conf_path_of str_pk self w)))
       (conf_written str_pk self w)).
Proof.
  intros E%truthy_true.
  unfold set_krb5_conf, krb5_conf_path, bind. rewrite E.
  cbn [negb gets mkdir_parents modify write_file ret].
  rewrite (str_path_snoc_truthy _ "krb5.conf" eq_refl). reflexivity.
Qed.

Lemma restore_krb5_conf_environ self previous w :
  environ (snd (restore_krb5_conf self previous w)) !! KRB5_CONFIG = restored previous.
Proof.
  unfold restore_krb5_conf, restored.
  assert (Hdel : environ (snd (environ_del KRB5_CONFIG w)) !! KRB5_CONFIG = None).
  { unfold environ_del. destruct (environ w !! KRB5_CONFIG) eqn:E; simpl; [|done].
    apply lookup_delete_eq. }
  destruct previous as [p|]; [|exact Hdel].
  destruct (truthy p); [|exact Hdel].
  simpl. apply lookup_insert_eq.
Qed.

(** [__exit__] can only fail with the [KeyError] of
    [del os.environ["KRB5_CONFIG"]]. *)
Lemma restore_krb5_conf_result self previous w :
  fst (restore_krb5_conf self previous w) =
    if truthy_opt previous then Return tt
    else match environ w !! KRB5_CONFIG with
         | Some _ => Return tt
         | None => Raise (KeyError KRB5_CONFIG)
         end.
Proof.
  unfold restore_krb5_conf, environ_del.
  destruct previous as [p|]; simpl; [destruct (truthy p)|]; simpl; try done;
    destruct (environ w !! KRB5_CONFIG); done.
Qed.

End Scope.

Section ScopeStatements.

Context {PK : Type} (str_pk : PK → string).
Implicit Types (self : @KerberosSource PK) (w : World).

(** A source without krb5.conf text: entry changes nothing and hands
    [None] to [__exit__], which then runs
    [del os.environ["KRB5_CONFIG"]] all the same. *)
Lemma Krb5ConfContext_blank_conf {A} self w (body : M A) :
  krb5_conf self = "" →
  __enter__ str_pk (__init__ self) w = (Return (__init__ self), w) ∧
  environ (snd (with_Krb5ConfContext str_pk self body w)) !! KRB5_CONFIG = None ∧
  (environ (snd (body w)) !! KRB5_CONFIG = None →
   fst (with_Krb5ConfContext str_pk self body w) = Raise (KeyError KRB5_CONFIG)).
Proof.
  intros E.
  assert (Henter : __enter__ str_pk (__init__ self) w = (Return (__init__ self), w)).
  { unfold __enter__, bind. simpl. rewrite (set_krb5_conf_empty _ _ _ E). reflexivity. }
  split; [exact Henter|].
  unfold with_Krb5ConfContext, with_stmt. rewrite Henter.
  destruct (body w) as [r w2]. simpl.
  pose proof (restore_krb5_conf_environ self None w2) as Henv.
  pose proof (restore_krb5_conf_result self None w2) as Hres.
  unfold __exit__. cbn [__init__ _source _previous fst snd] in *.
  destruct (restore_krb5_conf self None w2) as [[[]|e] w3];
    cbn [truthy_opt fst snd] in *.
  - split; [exact Henv|]. intros Hnone. rewrite Hnone in Hres. discriminate.
  - split; [exact Henv|]. intros _. destruct (environ w2 !! KRB5_CONFIG); congruence.
Qed.

(** C1 (as amended). For a source with krb5.conf text, [__enter__]
    records the current value of [KRB5_CONFIG] in [_previous] and
    points the variable at the per-source file. Whatever the body of
    the [with] statement does, including raising, the variable then
    ends as follows: a non-empty previous value is written back; with
    no previous value, or an empty one, the variable ends unset. *)
Theorem Krb5ConfContext_restores_previous {A} self w (body : M A) :
  krb5_conf self ≠ "" →
  __enter__ str_pk (__init__ self) w =
    (Return {| _source := self; _previous := environ w !! KRB5_CONFIG |},
     with_environ (insert KRB5_CONFIG (str_path (conf_path_of str_pk self w)))
       (conf_written str_pk self w)) ∧
  environ (snd (with_Krb5ConfContext str_pk self body w)) !! KRB5_CONFIG =
    match environ w !! KRB5_CONFIG with
    | Some previous => if decide (previous = "") then None else Some previous
    | None => None
    end.
Proof.
  intros E.
  assert (Henter : __enter__ str_pk (__init__ self) w =
    (Return {| _source := self; _previous := environ w !! KRB5_CONFIG |},
     with_environ (insert KRB5_CONFIG (str_path (conf_path_of str_pk self w)))
       (conf_written str_pk self w))).
  { unfold __enter__, bind. simpl. rewrite (set_krb5_conf_nonempty _ _ _ E). reflexivity. }
  split; [exact Henter|].
  unfold with_Krb5ConfContext, with_stmt. rewrite Henter.
  destruct (body _) as [r w2].
  pose proof (restore_krb5_conf_environ self (environ w !! KRB5_CONFIG) w2) as Henv.
  unfold __exit__. cbn [_source _previous].
  destruct (restore_krb5_conf self (environ w !! KRB5_CONFIG) w2) as [[[]|e] w3];
    simpl in Henv |- *; rewrite Henv; unfold restored;
    destruct (environ w !! KRB5_CONFIG) as [p|]; try done;
    destruct p; done.
Qed.

End ScopeStatements.

(** The scope around a failing body, in a process started with
    [KRB5_CONFIG=/etc/krb5.conf]. *)
Lemma Krb5ConfContext_restores_previous_witness :
  krb5_conf (Examples.by_password 1 "[libdefaults]") ≠ "" ∧
  environ (snd (with_Krb5ConfContext pretty (Examples.by_password 1 "[libdefaults]")
                  (raise (A := unit) (KadminError "unreachable"))
                  (Examples.with_KRB5_CONFIG "/etc/krb5.conf"))) !! KRB5_CONFIG
  = Some "/etc/krb5.conf".
Proof.
  assert (H : krb5_conf (Examples.by_password 1 "[libdefaults]") ≠ "") by (simpl; discriminate).
  split; [exact H|].
  exact (proj2 (Krb5ConfContext_restores_previous pretty
                  (Examples.by_password 1 "[libdefaults]")
                  (Examples.with_KRB5_CONFIG "/etc/krb5.conf")
                  (raise (A := unit) (KadminError "unreachable")) H)).
Defined.

(** C1 as worded fails when the process was started with
    [KRB5_CONFIG] set to the empty string: that value exists, is saved
    on entry, and is not written back; the variable ends unset. *)
Lemma Krb5ConfContext_empty_previous_not_restored :
  let self := Examples.by_password 1 "[libdefaults]" in
  let w := Examples.with_KRB5_CONFIG "" in
  krb5_conf self ≠ "" ∧
  environ w !! KRB5_CONFIG = Some "" ∧
  environ (snd (with_Krb5ConfContext pretty self (ret tt) w)) !! KRB5_CONFIG = None.
Proof. repeat split; [simpl; discriminate | vm_compute; reflexivity ..]. Qed.

(** C2. A source with blank [krb5_conf] in a process started with
    [KRB5_CONFIG=/etc/krb5.conf]: entry is a no-op, yet after the
    [with] statement the variable is gone. Started without the
    variable, the same statement fails with [KeyError]. *)
Theorem Krb5ConfContext_blank_conf_clobbers_KRB5_CONFIG :
  let self := Examples.by_password 1 "" in
  let w := Examples.with_KRB5_CONFIG "/etc/krb5.conf" in
  __enter__ pretty (__init__ self) w = (Return (__init__ self), w) ∧
  environ w !! KRB5_CONFIG = Some "/etc/krb5.conf" ∧
  environ (snd (with_Krb5ConfContext pretty self (ret tt) w)) !! KRB5_CONFIG = None ∧
  fst (with_Krb5ConfContext pretty self (ret tt) Examples.fresh)
    = Raise (KeyError "KRB5_CONFIG").
Proof. repeat split; vm_compute; reflexivity. Qed.

(** ** CredentialMaterial: [_kadmin_init] *)

Section Credentials.

Context {PK : Type} (str_pk : PK → string).
Context (b64decode : string → option (list Byte.byte)).
Implicit Types (self : @KerberosSource PK) (w : World).

Lemma getattr_keytab self w :
  getattr self "keytab" w = (Raise (AttributeError "keytab"), w).
Proof.
  unfold getattr, text_attrs. cbn [list_to_map foldr uncurry].
  rewrite !lookup_insert_ne by discriminate. rewrite lookup_empty. reflexivity.
Qed.

Lemma _kadmin_init_no_principal self w :
  sync_principal self = "" → _kadmin_init str_pk b64decode self w = (Return None, w).
Proof. intros E. unfold _kadmin_init. rewrite E. reflexivity. Qed.

Lemma _kadmin_init_password self w :
  sync_principal self ≠ "" → sync_password self ≠ "" →
  _kadmin_init str_pk b64decode self w =
    session_by (InitWithPassword (sync_principal self) (sync_password self) (realm self)) w.
Proof.
  intros E1%truthy_true E2%truthy_true. unfold _kadmin_init. rewrite E1, E2. reflexivity.
Qed.

(** A keytab in the form TYPE:residual goes to the library as it
    is; neither the decoder nor the scratch directory is involved. *)
Lemma _kadmin_init_keytab_reference self w :
  sync_principal self ≠ "" → sync_password self = "" →
  str_in ":" (sync_keytab self) = true →
  _kadmin_init str_pk b64decode self w =
    session_by (InitWithKeytab (sync_principal self) (sync_keytab self) (realm self)) w.
Proof.
  intros E1%truthy_true E2 E3. unfold _kadmin_init. rewrite E1, E2, E3.
  assert (truthy (sync_keytab self) = true) as ->.
  { destruct (sync_keytab self); [discriminate E3 | reflexivity]. }
  reflexivity.
Qed.

(** A keytab without [:] takes the scratch-file path, which reads
    [self.keytab] after creating the directory: the lookup fails
    before anything is decoded, written or sent to the realm. *)
Lemma _kadmin_init_raw_keytab self w :
  sync_principal self ≠ "" → sync_password self = "" →
  sync_keytab self ≠ "" → str_in ":" (sync_keytab self) = false →
  _kadmin_init str_pk b64decode self w =
    (Raise (AttributeError "keytab"),
     with_fs_dirs (fun d => d ∪ list_to_set (ancestors [] (scratch_dir_of str_pk self w))) w).
Proof.
  intros E1%truthy_true E2 E3%truthy_true E4. unfold _kadmin_init.
  rewrite E1, E2, E3, E4. cbn [negb truthy]. unfold bind at 1.
  unfold bind, gets, mkdir_parents, modify. rewrite getattr_keytab. reflexivity.
Qed.

Lemma _kadmin_init_ccache self w :
  sync_principal self ≠ "" → sync_password self = "" → sync_keytab self = "" →
  sync_ccache self ≠ "" →
  _kadmin_init str_pk b64decode self w =
    session_by (InitWithCcache (sync_principal self) (sync_ccache self) (realm self)) w.
Proof.
  intros E1%truthy_true E2 E3 E4%truthy_true. unfold _kadmin_init.
  rewrite E1, E2, E3, E4. reflexivity.
Qed.

Lemma _kadmin_init_no_credential self w :
  sync_password self = "" → sync_keytab self = "" → sync_ccache self = "" →
  _kadmin_init str_pk b64decode self w = (Return None, w).
Proof.
  intros E2 E3 E4. unfold _kadmin_init. rewrite E2, E3, E4.
  destruct (truthy (sync_principal self)); reflexivity.
Qed.

(** One authentication call appends exactly one event to the log. *)
Lemma session_by_new_events call w :
  new_events w (snd (session_by call w)) =
    [ {| ev_call := call; ev_krb5_config := environ w !! KRB5_CONFIG |} ].
Proof.
  unfold new_events, session_by, bind, kadmin_init.
  destruct (kdc_auth w _ _); simpl; rewrite drop_app_length; reflexivity.
Qed.

(** The credential [_kadmin_init] goes by is the one the precedence
    password > keytab > credential-cache > none selects, and each case
    is pinned to its outcome: no principal or no credential gives no
    session and calls nothing; a password gives exactly the password
    login, whatever the keytab and ccache fields hold; otherwise a
    keytab makes the outcome independent of the ccache field, a
    TYPE:residual keytab being exactly the keytab login with that value
    and any other keytab ending in the [AttributeError] of
    [self.keytab] once the scratch directory is made; otherwise a
    ccache gives exactly the ccache login. *)
Lemma _kadmin_init_precedence self w :
  match spec_precedence self with
  | NoSession => _kadmin_init str_pk b64decode self w = (Return None, w)
  | UsePassword =>
      _kadmin_init str_pk b64decode self w =
        session_by
          (InitWithPassword (sync_principal self) (sync_password self) (realm self)) w
      ∧ ∀ keytab ccache,
          _kadmin_init str_pk b64decode (set_sync_keytab keytab (set_sync_ccache ccache self)) w
          = _kadmin_init str_pk b64decode self w
  | UseKeytab =>
      (∀ ccache,
         _kadmin_init str_pk b64decode (set_sync_ccache ccache self) w
         = _kadmin_init str_pk b64decode self w)
      ∧ _kadmin_init str_pk b64decode self w =
          if str_in ":" (sync_keytab self)
          then session_by
                 (InitWithKeytab (sync_principal self) (sync_keytab self) (realm self)) w
          else (Raise (AttributeError "keytab"),
                with_fs_dirs
                  (fun d => d ∪ list_to_set (ancestors [] (scratch_dir_of str_pk self w))) w)
  | UseCcache =>
      _kadmin_init str_pk b64decode self w =
        session_by (InitWithCcache (sync_principal self) (sync_ccache self) (realm self)) w
  end.
Proof.
  unfold spec_precedence.
  destruct (decide (sync_principal self = "")) as [E1|E1];
    [exact (_kadmin_init_no_principal self w E1)|].
  destruct (decide (sync_password self ≠ "")) as [E2|E2].
  { split; [exact (_kadmin_init_password self w E1 E2)|].
    intros keytab ccache.
    rewrite (_kadmin_init_password self w E1 E2).
    exact (_kadmin_init_password (set_sync_keytab keytab (set_sync_ccache ccache self))
             w E1 E2). }
  apply dec_stable in E2.
  destruct (decide (sync_keytab self ≠ "")) as [E3|E3].
  { destruct (str_in ":" (sync_keytab self)) eqn:E4.
    - pose proof (_kadmin_init_keytab_reference self w E1 E2 E4) as Heq.
      split; [|exact Heq].
      intros ccache. rewrite Heq.
      exact (_kadmin_init_keytab_reference (set_sync_ccache ccache self) w E1 E2 E4).
    - pose proof (_kadmin_init_raw_keytab self w E1 E2 E3 E4) as Heq.
      split; [|exact Heq].
      intros ccache. rewrite Heq.
      exact (_kadmin_init_raw_keytab (set_sync_ccache ccache self) w E1 E2 E3 E4). }
  apply dec_stable in E3.
  destruct (decide (sync_ccache self ≠ "")) as [E4|E4].
  { exact (_kadmin_init_ccache self w E1 E2 E3 E4). }
  apply dec_stable in E4.
  exact (_kadmin_init_no_credential self w E2 E3 E4).
Qed.

End Credentials.

(** A keytab reference wins over the ccache configured next to it. *)
Lemma _kadmin_init_precedence_witness :
  str_in ":" "FILE:/etc/krb5.keytab" = true ∧
  _kadmin_init pretty Examples.b64decode
    (Examples.by_keytab "FILE:/etc/krb5.keytab") Examples.fresh
  = session_by (InitWithKeytab "admin/admin" "FILE:/etc/krb5.keytab" "EXAMPLE.ORG")
      Examples.fresh.
Proof.
  split; [reflexivity|].
  exact (proj2 (_kadmin_init_precedence pretty Examples.b64decode
                  (Examples.by_keytab "FILE:/etc/krb5.keytab") Examples.fresh)).
Defined.

(** C3. A source with principal, no password, a base64 keytab and,
    below it in precedence, a ccache. The precedence selects the
    keytab, and the keytab is not used: [_kadmin_init] ends in the
    [AttributeError] of [self.keytab] without a single call to the
    realm, so no session is opened by keytab, and none by the ccache
    either. With the keytab given as TYPE:residual instead, the same
    source logs in by keytab. *)
Theorem _kadmin_init_selected_keytab_not_used :
  let self := Examples.by_raw_keytab in
  let out := _kadmin_init pretty Examples.b64decode self Examples.fresh in
  (sync_principal self ≠ "" ∧ sync_password self = "" ∧
   sync_keytab self ≠ "" ∧ sync_ccache self ≠ "") ∧
  spec_precedence self = UseKeytab ∧
  fst out = Raise (AttributeError "keytab") ∧
  new_events Examples.fresh (snd out) = [] ∧
  fst (_kadmin_init pretty Examples.b64decode
         (Examples.by_keytab "FILE:/etc/krb5.keytab") Examples.fresh)
  = Return (Some {| kadm_id := 0 |}) ∧
  new_events Examples.fresh
    (snd (_kadmin_init pretty Examples.b64decode
            (Examples.by_keytab "FILE:/etc/krb5.keytab") Examples.fresh))
  = [ event_at (InitWithKeytab "admin/admin" "FILE:/etc/krb5.keytab" "EXAMPLE.ORG")
        Examples.fresh ].
Proof.
  cbv zeta. split_and!; try discriminate; vm_compute; reflexivity.
Qed.

(** C4. The keytab field holds base64("ABCD"), which has no [:] and
    which the decoder would turn into the bytes ABCD. [_kadmin_init]
    creates the scratch directory and then fails with [AttributeError]
    on [self.keytab]: nothing is decoded, no keytab file is written and
    the keytab login is never called. *)
Theorem _kadmin_init_raw_keytab_fails :
  let self := Examples.by_raw_keytab in
  let out := _kadmin_init pretty Examples.b64decode self Examples.fresh in
  str_in ":" (sync_keytab self) = false ∧
  Examples.b64decode (sync_keytab self) = Some [Byte.x41; Byte.x42; Byte.x43; Byte.x44] ∧
  fst out = Raise (AttributeError "keytab") ∧
  "/tmp/authentik/sources/kerberos/7" ∈ fs_dirs (snd out) ∧
  fs_files (snd out) !! "/tmp/authentik/sources/kerberos/7/keytab" = None ∧
  kadmin_log (snd out) = [].
Proof.
  cbv zeta.
  rewrite (_kadmin_init_raw_keytab pretty Examples.b64decode Examples.by_raw_keytab
             Examples.fresh) by (done || reflexivity).
  repeat split; vm_compute; reflexivity.
Qed.

(** ** AdminConnectionPool: [connection] *)

Section Pool.

Context {PK : Type} (str_pk : PK → string).
Context (b64decode : string → option (list Byte.byte)).
Implicit Types (self : @KerberosSource PK) (w : World).

Lemma session_by_eq call w :
  session_by call w =
    match kdc_auth w (kadmin_log w) (event_at call w) with
    | None =>
        (Return (Some {| kadm_id := length (kadmin_log w) |}),
         with_kadmin_log (fun l => (l ++ [event_at call w])%list) w)
    | Some msg =>
        (Raise (KadminError msg),
         with_kadmin_log (fun l => (l ++ [event_at call w])%list) w)
    end.
Proof.
  unfold session_by, bind, kadmin_init, event_at.
  destruct (kdc_auth _ _ _); reflexivity.
Qed.

(** Which branch [_kadmin_init] takes depends on the source alone. *)
Lemma _kadmin_init_cases self :
  (∀ w, _kadmin_init str_pk b64decode self w = (Return None, w)) ∨
  (∃ call, is_init call = true ∧
           ∀ w, _kadmin_init str_pk b64decode self w = session_by call w) ∨
  (∀ w, _kadmin_init str_pk b64decode self w =
          (Raise (AttributeError "keytab"),
           with_fs_dirs
             (fun d => d ∪ list_to_set (ancestors [] (scratch_dir_of str_pk self w))) w)).
Proof.
  destruct (decide (sync_principal self = "")) as [E1|E1].
  { left. intros w. by apply _kadmin_init_no_principal. }
  destruct (decide (sync_password self = "")) as [E2|E2]; cycle 1.
  { right. left. eexists. split; [|intros w; by apply _kadmin_init_password]. done. }
  destruct (decide (sync_keytab self = "")) as [E3|E3]; cycle 1.
  { destruct (str_in ":" (sync_keytab self)) eqn:E4.
    - right. left. eexists. split; [|intros w; by apply _kadmin_init_keytab_reference]. done.
    - right. right. intros w. by apply _kadmin_init_raw_keytab. }
  destruct (decide (sync_ccache self = "")) as [E4|E4]; cycle 1.
  { right. left. eexists. split; [|intros w; by apply _kadmin_init_ccache]. done. }
  left. intros w. by apply _kadmin_init_no_credential.
Qed.

Lemma connection_hit self w cached :
  _kadmin_connections w !! str_pk (pk self) = Some cached →
  connection str_pk b64decode self w = (Return cached, w).
Proof.
  intros H. unfold connection, bind, gets. rewrite H. cbn [ret]. rewrite H. reflexivity.
Qed.

Lemma connection_miss self w :
  _kadmin_connections w !! str_pk (pk self) = None →
  connection str_pk b64decode self w =
    match _kadmin_init str_pk b64decode self w with
    | (Return (Some _), w1) =>
        match _kadmin_init str_pk b64decode self w1 with
        | (Return again, w2) =>
            (Return again, with_connections (insert (str_pk (pk self)) again) w2)
        | (Raise e, w2) => (Raise e, w2)
        end
    | (Return None, w1) =>
        (Return (default None (_kadmin_connections w1 !! str_pk (pk self))), w1)
    | (Raise e, w1) => (Raise e, w1)
    end.
Proof.
  intros H. unfold connection, bind, gets. rewrite H.
  destruct (_kadmin_init str_pk b64decode self w) as [[[k1|]|e] w1]; try reflexivity.
  destruct (_kadmin_init str_pk b64decode self w1) as [[again|e] w2]; try reflexivity.
  cbn [modify with_connections _kadmin_connections]. rewrite lookup_insert_eq. reflexivity.
Qed.

(** A first call for a source whose credentials open a session: two
    authentications, the second of which is kept. *)
Lemma connection_miss_session self w call :
  _kadmin_connections w !! str_pk (pk self) = None →
  (∀ w', _kadmin_init str_pk b64decode self w' = session_by call w') →
  connection str_pk b64decode self w =
    let e := event_at call w in
    let w1 := with_kadmin_log (fun l => (l ++ [e])%list) w in
    let w2 := with_kadmin_log (fun l => (l ++ [e])%list) w1 in
    match kdc_auth w (kadmin_log w) e with
    | Some msg => (Raise (KadminError msg), w1)
    | None =>
        match kdc_auth w (kadmin_log w ++ [e])%list e with
        | Some msg => (Raise (KadminError msg), w2)
        | None =>
            let again := {| kadm_id := S (length (kadmin_log w)) |} in
            (Return (Some again),
             with_connections (insert (str_pk (pk self)) (Some again)) w2)
        end
    end.
Proof.
  intros Hmiss Hinit. rewrite (connection_miss _ _ Hmiss).
  rewrite Hinit, session_by_eq. cbv zeta.
  destruct (kdc_auth w (kadmin_log w) (event_at call w)); [reflexivity|].
  rewrite Hinit, session_by_eq.
  change (event_at call (with_kadmin_log _ w)) with (event_at call w).
  cbn [kdc_auth kadmin_log with_kadmin_log].
  destruct (kdc_auth w (kadmin_log w ++ [event_at call w])%list (event_at call w));
    [reflexivity|].
  rewrite length_app, Nat.add_1_r. reflexivity.
Qed.

(** How a call can come to return a session: from the table, or by
    storing the second of two fresh authentications. *)
Lemma connection_Some_inv self w kadm :
  fst (connection str_pk b64decode self w) = Return (Some kadm) →
  (_kadmin_connections w !! str_pk (pk self) = Some (Some kadm) ∧
   snd (connection str_pk b64decode self w) = w) ∨
  (_kadmin_connections w !! str_pk (pk self) = None ∧
   kadm_id kadm = S (length (kadmin_log w)) ∧
   _kadmin_connections (snd (connection str_pk b64decode self w)) =
     <[str_pk (pk self) := Some kadm]> (_kadmin_connections w) ∧
   length (kadmin_log (snd (connection str_pk b64decode self w))) =
     S (S (length (kadmin_log w)))).
Proof.
  destruct (_kadmin_connections w !! str_pk (pk self)) as [cached|] eqn:Hc.
  - rewrite (connection_hit _ _ _ Hc). simpl. intros [= ->]. by left.
  - intros Hret. right. split; [done|]. revert Hret.
    destruct (_kadmin_init_cases self) as [Hn|[(call & _ & Hs)|Ha]].
    + rewrite (connection_miss _ _ Hc), Hn, Hc. discriminate.
    + rewrite (connection_miss_session _ _ _ Hc Hs). cbv zeta.
      destruct (kdc_auth w (kadmin_log w) _); [discriminate|].
      destruct (kdc_auth w (kadmin_log w ++ _)%list _); [discriminate|].
      cbn [fst snd]. intros [= <-]. cbn. rewrite !length_app. cbn. split_and!; [done..|lia].
    + rewrite (connection_miss _ _ Hc), Ha. discriminate.
Qed.

(** The table only ever grows, and the log only ever grows. *)
Lemma connection_cache_wf self w :
  cache_wf w → cache_wf (snd (connection str_pk b64decode self w)).
Proof.
  intros [Hfresh Hinj].
  destruct (_kadmin_connections w !! str_pk (pk self)) as [cached|] eqn:Hc.
  { rewrite (connection_hit _ _ _ Hc). by split. }
  destruct (_kadmin_init_cases self) as [Hn|[(call & _ & Hs)|Ha]].
  - rewrite (connection_miss _ _ Hc), Hn. by split.
  - rewrite (connection_miss_session _ _ _ Hc Hs). cbv zeta.
    destruct (kdc_auth w (kadmin_log w) _).
    { split; cbn; [|done]. intros key kadm Hk. apply Hfresh in Hk.
      rewrite length_app. lia. }
    destruct (kdc_auth w (kadmin_log w ++ _)%list _).
    { split; cbn; [|done]. intros key kadm Hk. apply Hfresh in Hk.
      rewrite !length_app. lia. }
    split; cbn.
    + intros key kadm. rewrite !length_app. cbn.
      destruct (decide (str_pk (pk self) = key)) as [->|Hne].
      * rewrite lookup_insert_eq. intros [= <-]. cbn. lia.
      * rewrite lookup_insert_ne by done. intros Hk%Hfresh. lia.
    + intros key1 key2 kadm.
      destruct (decide (str_pk (pk self) = key1)) as [<-|Hne1];
        destruct (decide (str_pk (pk self) = key2)) as [<-|Hne2];
        rewrite ?lookup_insert_eq, ?lookup_insert_ne by done; try done.
      * intros [= <-] Hk%Hfresh. cbn in Hk. lia.
      * intros Hk%Hfresh [= <-]. cbn in Hk. lia.
      * apply Hinj.
  - rewrite (connection_miss _ _ Hc), Ha. by split.
Qed.



Lemma connection_no_session self w :
  _kadmin_connections w !! str_pk (pk self) = None →
  fst (_kadmin_init str_pk b64decode self w) = Return None →
  connection str_pk b64decode self w = (Return None, w).
Proof.
  intros Hc Hnone. rewrite (connection_miss _ _ Hc).
  destruct (_kadmin_init_cases self) as [Hn|[(call & _ & Hs)|Ha]].
  - rewrite Hn, Hc. reflexivity.
  - rewrite Hs, session_by_eq in Hnone.
    destruct (kdc_auth w (kadmin_log w) _); discriminate.
  - rewrite Ha in Hnone. discriminate.
Qed.


(** C10. Nothing is cached for the source and a first [_kadmin_init]
    returns a session [first]. Then [connection] runs [_kadmin_init] a
    second time in the world the first run left, stores and returns
    what that second run gives, and the log shows the same
    authentication call twice. If the call returns a session it is the
    second one, a different object from [first]; otherwise it fails
    with the error of the second authentication and stores nothing. *)
Theorem connection_first_call_authenticates_twice self w first :
  _kadmin_connections w !! str_pk (pk self) = None →
  fst (_kadmin_init str_pk b64decode self w) = Return (Some first) →
  let key := str_pk (pk self) in
  let out := connection str_pk b64decode self w in
  out = (again <- _kadmin_init str_pk b64decode self ;;
         _ <- modify (with_connections (insert key again)) ;;
         ret again) (snd (_kadmin_init str_pk b64decode self w)) ∧
  (∃ call, is_init call = true ∧
           new_events w (snd out) = [event_at call w; event_at call w]) ∧
  match fst out with
  | Return (Some second) =>
      second ≠ first ∧
      fst (_kadmin_init str_pk b64decode self (snd (_kadmin_init str_pk b64decode self w)))
        = Return (Some second) ∧
      _kadmin_connections (snd out) !! key = Some (Some second)
  | Return None => False
  | Raise e => (∃ msg, e = KadminError msg) ∧ _kadmin_connections (snd out) !! key = None
  end.
Proof.
  intros Hc Hfirst. cbv zeta.
  destruct (_kadmin_init_cases self) as [Hn|[(call & Hcall & Hs)|Ha]].
  { rewrite Hn in Hfirst. discriminate. }
  2: { rewrite Ha in Hfirst. discriminate. }
  rewrite (connection_miss_session _ _ _ Hc Hs). cbv zeta.
  unfold bind at 1. rewrite !Hs, !session_by_eq in *.
  destruct (kdc_auth w (kadmin_log w) (event_at call w)) eqn:E1; [discriminate|].
  cbn [fst snd] in *. injection Hfirst as <-.
  change (event_at call (with_kadmin_log _ w)) with (event_at call w).
  cbn [kdc_auth kadmin_log with_kadmin_log].
  rewrite length_app, Nat.add_1_r.
  destruct (kdc_auth w (kadmin_log w ++ [event_at call w])%list (event_at call w)) eqn:E2.
  - split_and!; [reflexivity| |].
    + exists call. split; [done|]. unfold new_events. cbn.
      rewrite <- app_assoc, drop_app_length. reflexivity.
    + cbn. split; [eauto|done].
  - split_and!.
    + reflexivity.
    + exists call. split; [done|]. unfold new_events. cbn.
      rewrite <- app_assoc, drop_app_length. reflexivity.
    + cbn. split_and!; [|done|apply lookup_insert_eq]. intros [=]. lia.
Qed.

End Pool.

(** ** SourceSyncEngine: [check_connection] *)

Section Engine.

Context {PK : Type} (str_pk : PK → string).
Context (b64decode : string → option (list Byte.byte)).
Implicit Types (self : @KerberosSource PK) (w : World).

Lemma with_Krb5ConfContext_eq {A} self (body : M A) w :
  with_Krb5ConfContext str_pk self body w =
    match restore_krb5_conf self (saved self w) (snd (body (entered str_pk self w))) with
    | (Raise e, w3) => (Raise e, w3)
    | (Return _, w3) => (fst (body (entered str_pk self w)), w3)
    end.
Proof.
  unfold with_Krb5ConfContext, with_stmt, __enter__, __exit__, bind, entered, saved.
  cbn [__init__ _source _previous].
  destruct (truthy (krb5_conf self)) eqn:E.
  - apply truthy_true in E. rewrite (set_krb5_conf_nonempty _ _ _ E).
    cbn [ret _source _previous]. destruct (body _); reflexivity.
  - apply truthy_false in E. rewrite (set_krb5_conf_empty _ _ _ E).
    cbn [ret _source _previous]. destruct (body _); reflexivity.
Qed.

Lemma entered_connections self w :
  _kadmin_connections (entered str_pk self w) = _kadmin_connections w.
Proof. unfold entered. destruct (truthy (krb5_conf self)); reflexivity. Qed.

Lemma entered_kadmin_log self w :
  kadmin_log (entered str_pk self w) = kadmin_log w.
Proof. unfold entered. destruct (truthy (krb5_conf self)); reflexivity. Qed.

(** When does [__exit__] get through: always for a source with
    krb5.conf text (entry has set the variable), and otherwise only if
    the variable happens to be set. *)
Lemma exit_after_entry_ok self w w2 :
  environ w2 = environ (entered str_pk self w) →
  krb5_conf self ≠ "" ∨ is_Some (environ w !! KRB5_CONFIG) →
  fst (restore_krb5_conf self (saved self w) w2) = Return tt.
Proof.
  intros Henv Hok. rewrite restore_krb5_conf_result, Henv. unfold saved, entered.
  destruct (truthy (krb5_conf self)) eqn:E.
  - destruct (truthy_opt _); [done|]. cbn. by rewrite lookup_insert_eq.
  - apply truthy_false in E. destruct Hok as [?|[v ->]]; done.
Qed.

(** The health check of a source with sync switched off. *)
Lemma check_connection_sync_disabled self w :
  sync_users self = false →
  check_connection str_pk b64decode self w = (Return {[ "status" := VStr "ok" ]}, w).
Proof. intros E. unfold check_connection. rewrite E. reflexivity. Qed.

(** The health check of a source without principal, nothing cached. *)
Lemma check_connection_no_principal self w :
  sync_users self = true → sync_principal self = "" →
  _kadmin_connections w !! str_pk (pk self) = None →
  krb5_conf self ≠ "" ∨ is_Some (environ w !! KRB5_CONFIG) →
  fst (check_connection str_pk b64decode self w)
    = Return {[ "status" := VStr "no connection" ]} ∧
  kadmin_log (snd (check_connection str_pk b64decode self w)) = kadmin_log w.
Proof.
  intros Esync Eprinc Hc Hok. unfold check_connection. rewrite Esync. cbn [negb].
  rewrite with_Krb5ConfContext_eq.
  match goal with
  | |- context [try_except_kadmin ?body ?handler] =>
      assert (Hbody : try_except_kadmin body handler (entered str_pk self w)
                      = (Return (<[ "status" := VStr "no connection" ]>
                                   {[ "status" := VStr "ok" ]}), entered str_pk self w))
  end.
  { unfold try_except_kadmin, bind.
    rewrite connection_no_session;
      [reflexivity|by rewrite entered_connections|by rewrite _kadmin_init_no_principal]. }
  rewrite Hbody. cbn [fst snd].
  pose proof (exit_after_entry_ok self w (entered str_pk self w) eq_refl Hok) as Hexit.
  assert (Hlog : kadmin_log (snd (restore_krb5_conf self (saved self w)
                                    (entered str_pk self w))) = kadmin_log w).
  { rewrite <- (entered_kadmin_log self w). generalize (entered str_pk self w) as w1.
    intros w1. unfold restore_krb5_conf, environ_set, environ_del, modify.
    destruct (saved self w) as [p|]; [destruct (truthy p)|];
      try destruct (environ w1 !! KRB5_CONFIG); reflexivity. }
  destruct (restore_krb5_conf self (saved self w) (entered str_pk self w)) as [[[]|e] w3];
    cbn [fst snd] in *; [|discriminate].
  split; [|exact Hlog]. by rewrite insert_singleton_eq.
Qed.

(** C6 (as amended). With sync switched off the check returns exactly
    {"status": "ok"} and leaves the whole world untouched: no scope is
    entered and nothing is asked of the realm. With sync on, no sync
    principal, no session cached for the source, and a scope whose exit
    goes through (krb5.conf text present, or KRB5_CONFIG set), the
    check returns exactly {"status": "no connection"} without calling
    the realm. *)
Theorem check_connection_ok_or_no_connection self w :
  (sync_users self = false →
   check_connection str_pk b64decode self w = (Return {[ "status" := VStr "ok" ]}, w)) ∧
  (sync_users self = true → sync_principal self = "" →
   _kadmin_connections w !! str_pk (pk self) = None →
   krb5_conf self ≠ "" ∨ is_Some (environ w !! KRB5_CONFIG) →
   fst (check_connection str_pk b64decode self w)
     = Return {[ "status" := VStr "no connection" ]} ∧
   kadmin_log (snd (check_connection str_pk b64decode self w)) = kadmin_log w).
Proof.
  split.
  - apply check_connection_sync_disabled.
  - apply check_connection_no_principal.
Qed.

(** [except kadmin.Error] leaves no [kadmin.Error] behind when the
    handler itself does not raise one. *)
Lemma try_except_kadmin_folds {A} (body : M A) (handler : string → M A) w msg :
  (∀ m w', fst (handler m w') ≠ Raise (KadminError msg)) →
  fst (try_except_kadmin body handler w) ≠ Raise (KadminError msg).
Proof.
  intros Hh. unfold try_except_kadmin.
  destruct (body w) as [[a|[]] w']; cbn; try discriminate. apply Hh.
Qed.

(** No error of the realm leaves [check_connection]. *)
Lemma check_connection_folds_kadmin_errors self w msg :
  fst (check_connection str_pk b64decode self w) ≠ Raise (KadminError msg).
Proof.
  unfold check_connection. destruct (sync_users self); cbn [negb]; [|discriminate].
  rewrite with_Krb5ConfContext_eq.
  match goal with
  | |- context [restore_krb5_conf self ?prev ?w2] =>
      pose proof (restore_krb5_conf_result self prev w2) as Hexit;
      destruct (restore_krb5_conf self prev w2) as [[[]|e] w3]
  end; cbn [fst] in *.
  - apply try_except_kadmin_folds. discriminate.
  - destruct (truthy_opt _); [discriminate|].
    destruct (environ _ !! KRB5_CONFIG); [discriminate|]. injection Hexit as ->. discriminate.
Qed.

(** [connection] fails only with a realm error or with the
    [AttributeError] of the scratch-keytab path. *)
Lemma connection_outcomes self w :
  match fst (connection str_pk b64decode self w) with
  | Return _ => True
  | Raise e => (∃ msg, e = KadminError msg) ∨ e = AttributeError "keytab"
  end.
Proof.
  destruct (_kadmin_connections w !! str_pk (pk self)) as [cached|] eqn:Hc.
  { by rewrite (connection_hit _ _ _ _ _ Hc). }
  destruct (_kadmin_init_cases str_pk b64decode self) as [Hn|[(call & _ & Hs)|Ha]].
  - by rewrite (connection_miss _ _ _ _ Hc), Hn.
  - rewrite (connection_miss_session _ _ _ _ _ Hc Hs). cbv zeta.
    destruct (kdc_auth w (kadmin_log w) _); [cbn; eauto|].
    destruct (kdc_auth w (kadmin_log w ++ _)%list _); cbn; eauto.
  - rewrite (connection_miss _ _ _ _ Hc), Ha. cbn. eauto.
Qed.

(** All the ways [check_connection] can end: with a report, with the
    [KeyError] of [__exit__], or with the [AttributeError] of
    [_kadmin_init]. *)
Lemma check_connection_outcomes self w :
  match fst (check_connection str_pk b64decode self w) with
  | Return _ => True
  | Raise e => e = KeyError KRB5_CONFIG ∨ e = AttributeError "keytab"
  end.
Proof.
  unfold check_connection. destruct (sync_users self); cbn [negb]; [|done].
  rewrite with_Krb5ConfContext_eq.
  match goal with
  | |- context [restore_krb5_conf self ?prev ?w2] =>
      pose proof (restore_krb5_conf_result self prev w2) as Hexit;
      destruct (restore_krb5_conf self prev w2) as [[[]|e] w3]
  end; cbn [fst] in *.
  - unfold try_except_kadmin, bind.
    pose proof (connection_outcomes self (entered str_pk self w)) as Hconn.
    destruct (connection str_pk b64decode self (entered str_pk self w))
      as [[[kadm|]|e] w2]; cbn [fst] in *.
    + unfold principal_exists. destruct (kdc_principal_exists w2 _ _); done.
    + done.
    + destruct Hconn as [[msg ->]| ->]; cbn; eauto.
  - destruct (truthy_opt _); [discriminate|].
    destruct (environ _ !! KRB5_CONFIG); [discriminate|]. injection Hexit as ->. by left.
Qed.

(** A realm error in [connection] becomes the status of the report. *)
Lemma check_connection_reports_kadmin_error self w msg :
  sync_users self = true →
  fst (connection str_pk b64decode self (entered str_pk self w)) = Raise (KadminError msg) →
  environ (snd (connection str_pk b64decode self (entered str_pk self w)))
    = environ (entered str_pk self w) →
  krb5_conf self ≠ "" ∨ is_Some (environ w !! KRB5_CONFIG) →
  fst (check_connection str_pk b64decode self w) = Return {[ "status" := VStr msg ]}.
Proof.
  intros Esync Hconn Henv Hok. unfold check_connection. rewrite Esync. cbn [negb].
  rewrite with_Krb5ConfContext_eq.
  match goal with
  | |- context [try_except_kadmin ?body ?handler] =>
      assert (Hbody : try_except_kadmin body handler (entered str_pk self w)
                      = (Return (<[ "status" := VStr msg ]> {[ "status" := VStr "ok" ]}),
                         snd (connection str_pk b64decode self (entered str_pk self w))))
  end.
  { unfold try_except_kadmin, bind.
    destruct (connection str_pk b64decode self (entered str_pk self w)) as [r w2].
    cbn [fst snd] in *. rewrite Hconn. reflexivity. }
  rewrite Hbody. cbn [fst snd].
  pose proof (exit_after_entry_ok self w _ Henv Hok) as Hexit.
  destruct (restore_krb5_conf self (saved self w) _) as [[[]|e] w3];
    cbn [fst snd] in *; [|discriminate].
  by rewrite insert_singleton_eq.
Qed.

Lemma cache_wf_mono w w' :
  _kadmin_connections w' = _kadmin_connections w →
  (length (kadmin_log w) ≤ length (kadmin_log w'))%nat →
  cache_wf w → cache_wf w'.
Proof.
  intros Hc Hlen [Hfresh Hinj]. unfold cache_wf. rewrite Hc. split; [|done].
  intros key kadm Hk%Hfresh. lia.
Qed.


Lemma restore_krb5_conf_frame self previous w :
  _kadmin_connections (snd (restore_krb5_conf self previous w)) = _kadmin_connections w ∧
  kadmin_log (snd (restore_krb5_conf self previous w)) = kadmin_log w.
Proof.
  unfold restore_krb5_conf, environ_set, environ_del, modify.
  destruct previous as [p|]; [destruct (truthy p)|];
    try destruct (environ w !! KRB5_CONFIG); done.
Qed.

(** The health check keeps the connection table well formed. *)
Lemma check_connection_cache_wf self w :
  cache_wf w → cache_wf (snd (check_connection str_pk b64decode self w)).
Proof.
  intros Hwf. unfold check_connection. destruct (sync_users self); cbn [negb]; [|done].
  rewrite with_Krb5ConfContext_eq.
  match goal with
  | |- context [restore_krb5_conf self ?prev (snd ?body)] =>
      assert (Hbody : cache_wf (snd body));
      [|pose proof (restore_krb5_conf_frame self prev (snd body)) as [Hc Hl];
        destruct (restore_krb5_conf self prev (snd body)) as [[[]|e] w3]; cbn [snd] in *;
        (eapply cache_wf_mono; [exact Hc | by rewrite Hl | exact Hbody])]
  end.
  assert (Hin : cache_wf (entered str_pk self w)).
  { eapply cache_wf_mono; [apply entered_connections| by rewrite entered_kadmin_log |done]. }
  apply (connection_cache_wf str_pk b64decode self) in Hin.
  unfold try_except_kadmin, bind.
  destruct (connection str_pk b64decode self (entered str_pk self w)) as [[[kadm|]|[]] w2];
    cbn [snd] in *; try done.
  unfold principal_exists.
  destruct (kdc_principal_exists w2 _ _); cbn;
    (eapply cache_wf_mono; [| |exact Hin]; cbn; [done|rewrite length_app; lia]).
Qed.

End Engine.

Lemma check_connection_ok_or_no_connection_witness :
  (sync_users (Examples.no_principal "") = true ∧
   sync_principal (Examples.no_principal "") = "" ∧
   _kadmin_connections (Examples.with_KRB5_CONFIG "/etc/krb5.conf") !! pretty 9%Z = None ∧
   is_Some (environ (Examples.with_KRB5_CONFIG "/etc/krb5.conf") !! KRB5_CONFIG)) ∧
  fst (check_connection pretty Examples.b64decode (Examples.no_principal "")
         (Examples.with_KRB5_CONFIG "/etc/krb5.conf"))
  = Return {[ "status" := VStr "no connection" ]}.
Proof.
  assert (H3 : _kadmin_connections (Examples.with_KRB5_CONFIG "/etc/krb5.conf")
               !! pretty 9%Z = None) by (vm_compute; reflexivity).
  assert (H4 : is_Some (environ (Examples.with_KRB5_CONFIG "/etc/krb5.conf") !! KRB5_CONFIG))
    by (exists "/etc/krb5.conf"; vm_compute; reflexivity).
  split; [repeat split; assumption|].
  exact (proj1 (proj2 (check_connection_ok_or_no_connection pretty Examples.b64decode
                         (Examples.no_principal "")
                         (Examples.with_KRB5_CONFIG "/etc/krb5.conf"))
                  eq_refl eq_refl H3 (or_intror H4))).
Defined.

(** With the realm down the health check still answers, and the
    answer carries the error text. *)
Example check_connection_realm_down :
  fst (check_connection pretty Examples.b64decode (Examples.by_password 1 "")
         Examples.realm_down)
  = Return {[ "status" := VStr "Cannot contact any KDC" ]}.
Proof. vm_compute. reflexivity. Qed.

(** C6 as worded fails on a worker that still holds a
    session for the source from the time it had a principal: the
    health check of the source with its principal now cleared reuses
    the cached session and reports "ok". *)
Lemma check_connection_no_principal_cached_session :
  let before := Examples.by_password 9 "[libdefaults]" in
  let now := Examples.no_principal "[libdefaults]" in
  let w := snd (check_connection pretty Examples.b64decode before Examples.fresh) in
  pk now = pk before ∧ sync_users now = true ∧ sync_principal now = "" ∧
  fst (check_connection pretty Examples.b64decode now w)
  = Return {[ "status" := VStr "ok"; "principal_exists" := VBool true ]}.
Proof. repeat split; vm_compute; reflexivity. Qed.

(** C7. A worker started without [KRB5_CONFIG], a source without
    krb5.conf text, a realm that answers every call: the health check
    raises [KeyError] from [__exit__] instead of returning its report.
    With a base64 keytab it raises [AttributeError] from
    [_kadmin_init]. Neither is a [kadmin.Error], so nothing catches
    them. *)
Theorem check_connection_raises :
  let blank := Examples.by_password 1 "" in
  environ Examples.fresh !! KRB5_CONFIG = None ∧
  fst (check_connection pretty Examples.b64decode blank Examples.fresh)
    = Raise (KeyError "KRB5_CONFIG") ∧
  length (kadmin_log (snd (check_connection pretty Examples.b64decode blank Examples.fresh)))
    = 3 ∧
  fst (check_connection pretty Examples.b64decode Examples.by_raw_keytab Examples.fresh)
    = Raise (AttributeError "keytab").
Proof. repeat split; vm_compute; reflexivity. Qed.

(** ** SyncCoordinator: [sync_lock] *)

Section Lock.

Context {PK : Type}.
Implicit Types (self : @KerberosSource PK) (w : World).

(** The lock is a function of the tenant schema, the slug and the
    configured task timeout; building it changes nothing. *)
Lemma sync_lock_eq self w :
  sync_lock self w =
    (Return {| lock_name := "goauthentik.io/sources/kerberos/sync/"
                            +:+ schema_name w +:+ "-" +:+ slug self;
               lock_timeout :=
                 (60 * 60 * CONFIG_get_int w "kerberos.task_timeout_hours" * 3)%Z |},
     w).
Proof. reflexivity. Qed.

(** Two attempts on the same source, in the same tenant, name the same
    lock, whatever else differs between the two processes. *)
Lemma sync_lock_name_same_source self w w' (lock lock' : Lock) :
  schema_name w = schema_name w' →
  fst (sync_lock self w) = Return lock → fst (sync_lock self w') = Return lock' →
  lock_name lock = lock_name lock'.
Proof. rewrite !sync_lock_eq. cbn. intros -> [= <-] [= <-]. reflexivity. Qed.

(** Within one tenant, sources with different slugs name different
    locks. *)
Lemma sync_lock_name_other_source self1 self2 w (lock1 lock2 : Lock) :
  slug self1 ≠ slug self2 →
  fst (sync_lock self1 w) = Return lock1 → fst (sync_lock self2 w) = Return lock2 →
  lock_name lock1 ≠ lock_name lock2.
Proof.
  rewrite !sync_lock_eq. cbn. intros Hne [= <-] [= <-]. cbn. intros Heq. apply Hne.
  by do 3 apply String.app_inj in Heq.
Qed.

(** C8. Whatever integer [kerberos.task_timeout_hours] is configured
    to, the lock [sync_lock] builds has a timeout of exactly
    3 × hours × 3600 seconds; for 2 hours that is 21600 seconds. *)
Theorem sync_lock_timeout self w (hours : Z) :
  CONFIG_get_int w "kerberos.task_timeout_hours" = hours →
  ∃ lock, sync_lock self w = (Return lock, w) ∧
          lock_timeout lock = (3 * hours * 3600)%Z ∧
          (hours = 2%Z → lock_timeout lock = 21600%Z).
Proof.
  intros <-. rewrite sync_lock_eq. eexists. split; [reflexivity|]. cbn [lock_timeout].
  split; [lia|]. intros ->. reflexivity.
Qed.

End Lock.

Lemma sync_lock_timeout_witness :
  CONFIG_get_int Examples.fresh "kerberos.task_timeout_hours" = 2%Z ∧
  ∃ lock, sync_lock (Examples.by_password 1 "") Examples.fresh = (Return lock, Examples.fresh) ∧
          lock_timeout lock = 21600%Z.
Proof.
  split; [reflexivity|].
  destruct (sync_lock_timeout (Examples.by_password 1 "") Examples.fresh 2 eq_refl)
    as (lock & Heq & _ & Hex).
  exists lock. split; [exact Heq | exact (Hex eq_refl)].
Defined.

(** ** The pool on concrete sources *)


Lemma connection_first_call_authenticates_twice_witness :
  let self := Examples.by_password 1 "" in
  let w := Examples.fresh in
  _kadmin_connections w !! pretty (pk self) = None ∧
  fst (_kadmin_init pretty Examples.b64decode self w) = Return (Some {| kadm_id := 0 |}) ∧
  fst (connection pretty Examples.b64decode self w) = Return (Some {| kadm_id := 1 |}) ∧
  new_events w (snd (connection pretty Examples.b64decode self w)) =
    [ event_at (InitWithPassword "admin/admin" "hunter2" "EXAMPLE.ORG") w;
      event_at (InitWithPassword "admin/admin" "hunter2" "EXAMPLE.ORG") w ].
Proof.
  cbv zeta.
  assert (H0 : _kadmin_connections Examples.fresh !! pretty (pk (Examples.by_password 1 ""))
               = None) by (vm_compute; reflexivity).
  assert (H1 : fst (_kadmin_init pretty Examples.b64decode (Examples.by_password 1 "")
                      Examples.fresh) = Return (Some {| kadm_id := 0 |}))
    by (vm_compute; reflexivity).
  destruct (connection_first_call_authenticates_twice pretty Examples.b64decode
              (Examples.by_password 1 "") Examples.fresh _ H0 H1) as (Heq & _ & _).
  split_and!; [exact H0 | exact H1 | rewrite Heq .. ]; vm_compute; reflexivity.
Defined.

(** * Further properties of models.py *)

(** ** Strings and paths *)

Lemma str_app_cons (x : Ascii.ascii) (a b : string) :
  String x a +:+ b = String x (a +:+ b).
Proof. reflexivity. Qed.

Lemma str_app_length (a b : string) :
  String.length (a +:+ b) = (String.length a + String.length b)%nat.
Proof.
  induction a as [|c a IH]; [done|]. rewrite str_app_cons. cbn. by rewrite IH.
Qed.

Lemma str_app_assoc (a b c : string) : (a +:+ b) +:+ c = a +:+ (b +:+ c).
Proof.
  induction a as [|x a IH]; [done|]. rewrite !str_app_cons. f_equal. exact IH.
Qed.

Lemma str_app_inj_r (a b s : string) : a +:+ s = b +:+ s → a = b.
Proof.
  revert b. induction a as [|x a IH]; intros [|y b] H.
  - done.
  - apply (f_equal String.length) in H. rewrite !str_app_length in H. cbn in H. lia.
  - apply (f_equal String.length) in H. rewrite !str_app_length in H. cbn in H. lia.
  - rewrite !str_app_cons in H. injection H as -> H. f_equal. by apply IH.
Qed.

Lemma ancestors_last (seen todo : Path) :
  todo ≠ [] → str_path (seen ++ todo)%list ∈ ancestors seen todo.
Proof.
  revert seen. induction todo as [|part rest IH]; intros seen Hne; [done|].
  destruct rest as [|next rest].
  - cbn. apply list_elem_of_here.
  - cbn [ancestors]. apply list_elem_of_further.
    rewrite (cons_middle part), (assoc_L (++)). by apply IH.
Qed.

(** ** [krb5_conf_path] *)

Section ConfFile.

Context {PK : Type} (str_pk : PK → string).
Implicit Types (self : @KerberosSource PK) (w : World).

Lemma krb5_conf_path_nonempty self w :
  krb5_conf self ≠ "" →
  krb5_conf_path str_pk self w =
    (Return (Some (str_path (conf_path_of str_pk self w))), conf_written str_pk self w).
Proof.
  intros E%truthy_true. unfold krb5_conf_path, bind. rewrite E. reflexivity.
Qed.

Lemma conf_path_of_inj self1 self2 w :
  str_path (conf_path_of str_pk self1 w) = str_path (conf_path_of str_pk self2 w) →
  str_pk (pk self1) = str_pk (pk self2).
Proof.
  unfold conf_path_of, Py.div. cbn [app str_path]. intros H.
  do 8 apply String.app_inj in H. by apply str_app_inj_r in H.
Qed.

(** X1. For a source with krb5.conf text, [krb5_conf_path] returns
    the per-source path, and afterwards that file holds exactly the
    text, the per-source directory exists, every other file is as it
    was, and environment, connection table and call log are
    untouched. *)
Theorem krb5_conf_path_writes_conf self w :
  krb5_conf self ≠ "" →
  let out := krb5_conf_path str_pk self w in
  let path := str_path (conf_path_of str_pk self w) in
  fst out = Return (Some path) ∧
  fs_files (snd out) !! path = Some (Text (krb5_conf self)) ∧
  str_path (scratch_dir_of str_pk self w) ∈ fs_dirs (snd out) ∧
  fs_dirs w ⊆ fs_dirs (snd out) ∧
  (∀ other, other ≠ path → fs_files (snd out) !! other = fs_files w !! other) ∧
  environ (snd out) = environ w ∧
  _kadmin_connections (snd out) = _kadmin_connections w ∧
  kadmin_log (snd out) = kadmin_log w.
Proof.
  intros E. cbv zeta. rewrite (krb5_conf_path_nonempty _ _ E). cbn [fst snd].
  unfold conf_written. cbn [fs_files fs_dirs with_fs_files with_fs_dirs environ
                             _kadmin_connections kadmin_log].
  split_and!; try done.
  - apply lookup_insert_eq.
  - apply elem_of_union_r, elem_of_list_to_set.
    apply (ancestors_last [] (scratch_dir_of str_pk self w)). done.
  - set_solver.
  - intros other Hne. by apply lookup_insert_ne.
Qed.

(** X2. Writing the file again changes nothing: a second
    [krb5_conf_path] returns the same path and leaves the world exactly
    as the first one left it. *)
Theorem krb5_conf_path_idempotent self w :
  krb5_conf_path str_pk self (snd (krb5_conf_path str_pk self w)) =
    krb5_conf_path str_pk self w.
Proof.
  destruct (decide (krb5_conf self = "")) as [E|E].
  { unfold krb5_conf_path. rewrite E. reflexivity. }
  rewrite !(krb5_conf_path_nonempty _ _ E). cbn [snd]. f_equal.
  unfold conf_written, conf_path_of, with_fs_files, with_fs_dirs.
  cbn [tempdir fs_dirs fs_files environ _kadmin_connections kadmin_log kdc_auth
       kdc_principal_exists schema_name CONFIG_get_int].
  f_equal.
  - by rewrite <- (assoc_L (∪)), (idemp_L (∪)).
  - apply insert_insert_eq.
Qed.

(** X3. Two sources with different keys have different files: after
    both have written theirs, each file holds its own source's text. *)
Theorem krb5_conf_path_per_source self1 self2 w :
  str_pk (pk self1) ≠ str_pk (pk self2) →
  krb5_conf self1 ≠ "" → krb5_conf self2 ≠ "" →
  let w' := snd (krb5_conf_path str_pk self2 (snd (krb5_conf_path str_pk self1 w))) in
  str_path (conf_path_of str_pk self1 w) ≠ str_path (conf_path_of str_pk self2 w) ∧
  fs_files w' !! str_path (conf_path_of str_pk self1 w) = Some (Text (krb5_conf self1)) ∧
  fs_files w' !! str_path (conf_path_of str_pk self2 w) = Some (Text (krb5_conf self2)).
Proof.
  intros Hne E1 E2. cbv zeta.
  assert (Hp : str_path (conf_path_of str_pk self1 w)
               ≠ str_path (conf_path_of str_pk self2 w)).
  { intros H. by apply Hne, (conf_path_of_inj _ _ w). }
  split; [exact Hp|].
  rewrite (krb5_conf_path_nonempty _ _ E1). cbn [snd].
  rewrite (krb5_conf_path_nonempty _ _ E2). cbn [snd].
  unfold conf_written. cbn [fs_files with_fs_files].
  change (conf_path_of str_pk self2 (with_fs_files _ _)) with (conf_path_of str_pk self2 w).
  split.
  - rewrite lookup_insert_ne by done. apply lookup_insert_eq.
  - apply lookup_insert_eq.
Qed.

End ConfFile.

Lemma krb5_conf_path_writes_conf_witness :
  krb5_conf (Examples.by_password 1 "[libdefaults]") ≠ "" ∧
  fs_files (snd (krb5_conf_path pretty (Examples.by_password 1 "[libdefaults]")
                   Examples.fresh))
    !! "/tmp/authentik/sources/kerberos/1/krb5.conf" = Some (Text "[libdefaults]").
Proof.
  assert (H : krb5_conf (Examples.by_password 1 "[libdefaults]") ≠ "") by discriminate.
  split; [exact H|].
  exact (proj1 (proj2 (krb5_conf_path_writes_conf pretty
                         (Examples.by_password 1 "[libdefaults]") Examples.fresh H))).
Defined.

Lemma krb5_conf_path_per_source_witness :
  let a := Examples.by_password 1 "[libdefaults]" in
  let b := Examples.by_password 2 "[realms]" in
  (pretty (pk a) ≠ pretty (pk b) ∧ krb5_conf a ≠ "" ∧ krb5_conf b ≠ "") ∧
  fs_files (snd (krb5_conf_path pretty b (snd (krb5_conf_path pretty a Examples.fresh))))
    !! "/tmp/authentik/sources/kerberos/1/krb5.conf" = Some (Text "[libdefaults]").
Proof.
  cbv zeta.
  assert (Hne : pretty (pk (Examples.by_password 1 "[libdefaults]"))
                ≠ pretty (pk (Examples.by_password 2 "[realms]")))
    by (vm_compute; discriminate).
  assert (Ha : krb5_conf (Examples.by_password 1 "[libdefaults]") ≠ "") by discriminate.
  assert (Hb : krb5_conf (Examples.by_password 2 "[realms]") ≠ "") by discriminate.
  split; [by split_and!|].
  exact (proj1 (proj2 (krb5_conf_path_per_source pretty _ _ Examples.fresh Hne Ha Hb))).
Defined.

(** ** [Krb5ConfContext]: frame, round trip and nesting *)

Section ScopeComposition.

Context {PK : Type} (str_pk : PK → string).
Implicit Types (self : @KerberosSource PK) (w : World).

(** What [restore_krb5_conf] does to the whole environment. *)
Lemma restore_krb5_conf_environ_eq self previous w :
  environ (snd (restore_krb5_conf self previous w)) =
    match restored previous with
    | Some p => <[KRB5_CONFIG := p]> (environ w)
    | None => delete KRB5_CONFIG (environ w)
    end.
Proof.
  assert (Hdel : environ (snd (environ_del KRB5_CONFIG w)) = delete KRB5_CONFIG (environ w)).
  { unfold environ_del. destruct (environ w !! KRB5_CONFIG) eqn:E; cbn; [done|].
    by rewrite delete_id. }
  unfold restore_krb5_conf, restored.
  destruct previous as [p|]; [destruct (truthy p)|]; done.
Qed.

Lemma restore_krb5_conf_fs self previous w :
  fs_files (snd (restore_krb5_conf self previous w)) = fs_files w ∧
  fs_dirs (snd (restore_krb5_conf self previous w)) = fs_dirs w.
Proof.
  unfold restore_krb5_conf, environ_set, environ_del, modify.
  destruct previous as [p|]; [destruct (truthy p)|];
    try destruct (environ w !! KRB5_CONFIG); done.
Qed.

Lemma entered_nonempty self w :
  krb5_conf self ≠ "" →
  entered str_pk self w =
    with_environ (insert KRB5_CONFIG (str_path (conf_path_of str_pk self w)))
      (conf_written str_pk self w) ∧
  saved self w = environ w !! KRB5_CONFIG.
Proof. intros E%truthy_true. unfold entered, saved. by rewrite E. Qed.

Lemma entered_empty self w :
  krb5_conf self = "" → entered str_pk self w = w ∧ saved self w = None.
Proof. intros E. unfold entered, saved. by rewrite E. Qed.

Lemma conf_path_truthy self w : truthy (str_path (conf_path_of str_pk self w)) = true.
Proof. unfold conf_path_of. by apply str_path_snoc_truthy. Qed.

(** The variable after the statement, for any source and any body. *)
Lemma with_Krb5ConfContext_environ {A} self (body : M A) w :
  environ (snd (with_Krb5ConfContext str_pk self body w)) !! KRB5_CONFIG
  = restored (saved self w).
Proof.
  rewrite with_Krb5ConfContext_eq.
  pose proof (restore_krb5_conf_environ self (saved self w)
                (snd (body (entered str_pk self w)))) as H.
  by destruct (restore_krb5_conf self (saved self w) _) as [[[]|e] w3].
Qed.

(** Entry and exit touch [KRB5_CONFIG] and nothing else of the
    environment, the table or the log. *)
Lemma with_Krb5ConfContext_keeps {A} self (body : M A) w (key : string) :
  key ≠ KRB5_CONFIG →
  let before_body := entered str_pk self w in
  let after_body := snd (body before_body) in
  let out := snd (with_Krb5ConfContext str_pk self body w) in
  (environ before_body !! key = environ w !! key ∧
   _kadmin_connections before_body = _kadmin_connections w ∧
   kadmin_log before_body = kadmin_log w) ∧
  (environ out !! key = environ after_body !! key ∧
   _kadmin_connections out = _kadmin_connections after_body ∧
   kadmin_log out = kadmin_log after_body ∧
   fs_files out = fs_files after_body ∧
   fs_dirs out = fs_dirs after_body).
Proof.
  intros Hkey. cbv zeta. split.
  - rewrite entered_connections, entered_kadmin_log. split_and!; try done.
    unfold entered. destruct (truthy (krb5_conf self)); [|done].
    cbn. by rewrite lookup_insert_ne.
  - rewrite with_Krb5ConfContext_eq.
    set (w2 := snd (body (entered str_pk self w))).
    pose proof (restore_krb5_conf_environ_eq self (saved self w) w2) as Henv.
    pose proof (restore_krb5_conf_frame self (saved self w) w2) as [Hc Hl].
    pose proof (restore_krb5_conf_fs self (saved self w) w2) as [Hf Hd].
    destruct (restore_krb5_conf self (saved self w) w2) as [[[]|e] w3];
      cbn [snd] in *; (split_and!; try done); rewrite Henv;
      destruct (restored (saved self w));
      by rewrite ?lookup_insert_ne, ?lookup_delete_ne.
Qed.

(** X4. The statement changes nothing but [KRB5_CONFIG] and the
    per-source file: every other environment variable, the connection
    table, the call log and the files are, after the statement, as the
    body left them, and the body starts with every other variable, the
    table and the log as they were before the statement. *)
Theorem Krb5ConfContext_frame {A} self (body : M A) w (key : string) :
  key ≠ KRB5_CONFIG →
  let before_body := entered str_pk self w in
  let after_body := snd (body before_body) in
  let out := snd (with_Krb5ConfContext str_pk self body w) in
  (environ before_body !! key = environ w !! key ∧
   _kadmin_connections before_body = _kadmin_connections w ∧
   kadmin_log before_body = kadmin_log w) ∧
  (environ out !! key = environ after_body !! key ∧
   _kadmin_connections out = _kadmin_connections after_body ∧
   kadmin_log out = kadmin_log after_body ∧
   fs_files out = fs_files after_body ∧
   fs_dirs out = fs_dirs after_body).
Proof. apply with_Krb5ConfContext_keeps. Qed.

(** X5. Round trip of the environment. For a source with krb5.conf
    text, in a process where [KRB5_CONFIG] is unset or non-empty, and
    a body that leaves the environment alone: after the statement the
    whole environment equals the one before it, and the statement ends
    the way the body ended. *)
Theorem Krb5ConfContext_environ_round_trip {A} self (body : M A) w :
  krb5_conf self ≠ "" →
  environ w !! KRB5_CONFIG ≠ Some "" →
  environ (snd (body (entered str_pk self w))) = environ (entered str_pk self w) →
  environ (snd (with_Krb5ConfContext str_pk self body w)) = environ w ∧
  fst (with_Krb5ConfContext str_pk self body w) = fst (body (entered str_pk self w)).
Proof.
  intros E Hprev Hbody. rewrite with_Krb5ConfContext_eq.
  set (w2 := snd (body (entered str_pk self w))) in *.
  pose proof (restore_krb5_conf_environ_eq self (saved self w) w2) as Henv.
  pose proof (exit_after_entry_ok str_pk self w w2 Hbody (or_introl E)) as Hexit.
  destruct (restore_krb5_conf self (saved self w) w2) as [[[]|e] w3];
    cbn [fst snd] in *; [|discriminate].
  split; [|done]. rewrite Henv, Hbody.
  destruct (entered_nonempty self w E) as [-> ->]. cbn [environ with_environ conf_written
    with_fs_files with_fs_dirs].
  unfold restored. destruct (environ w !! KRB5_CONFIG) as [p|] eqn:Hp.
  - assert (truthy p = true) as -> by (apply truthy_true; congruence).
    rewrite insert_insert_eq. by apply insert_id.
  - by apply delete_insert_id.
Qed.

(** X6. Nesting two sources that both have krb5.conf text. Inside
    the inner statement the variable names the inner source's file;
    once the inner statement is over it names the outer source's file
    again, whatever the inner body did; and after the outer statement
    it is back at the value from before, as for a single statement. *)
Theorem Krb5ConfContext_nested {A} outer inner (body : M A) w :
  krb5_conf outer ≠ "" → krb5_conf inner ≠ "" →
  fst (with_Krb5ConfContext str_pk outer
         (with_Krb5ConfContext str_pk inner (environ_get KRB5_CONFIG)) w)
    = Return (Some (str_path (conf_path_of str_pk inner w))) ∧
  environ (snd (with_Krb5ConfContext str_pk inner body (entered str_pk outer w)))
    !! KRB5_CONFIG = Some (str_path (conf_path_of str_pk outer w)) ∧
  environ (snd (with_Krb5ConfContext str_pk outer
                  (with_Krb5ConfContext str_pk inner body) w)) !! KRB5_CONFIG
    = restored (environ w !! KRB5_CONFIG).
Proof.
  intros Eo Ei.
  destruct (entered_nonempty outer w Eo) as [Hent_o Hsaved_o].
  assert (Hinner : ∀ B (b : M B),
    environ (snd (with_Krb5ConfContext str_pk inner b (entered str_pk outer w)))
      !! KRB5_CONFIG = Some (str_path (conf_path_of str_pk outer w))).
  { intros B b. rewrite with_Krb5ConfContext_environ.
    destruct (entered_nonempty inner (entered str_pk outer w) Ei) as [_ ->].
    rewrite Hent_o. cbn [environ with_environ]. rewrite lookup_insert_eq.
    cbn [restored]. by rewrite conf_path_truthy. }
  split_and!.
  - rewrite with_Krb5ConfContext_eq.
    set (probe := with_Krb5ConfContext str_pk inner (environ_get KRB5_CONFIG)).
    assert (Hprobe : fst (probe (entered str_pk outer w))
                     = Return (Some (str_path (conf_path_of str_pk inner w)))).
    { unfold probe. rewrite with_Krb5ConfContext_eq.
      destruct (entered_nonempty inner (entered str_pk outer w) Ei) as [Hent_i Hsaved_i].
      pose proof (exit_after_entry_ok str_pk inner (entered str_pk outer w)
                    (snd (environ_get KRB5_CONFIG (entered str_pk inner (entered str_pk outer w))))
                    eq_refl (or_introl Ei)) as Hexit.
      destruct (restore_krb5_conf inner _ _) as [[[]|e] w3]; cbn [fst] in *; [|discriminate].
      rewrite Hent_i. cbn. rewrite lookup_insert_eq. rewrite Hent_o. reflexivity. }
    pose proof (restore_krb5_conf_result outer (saved outer w)
                  (snd (probe (entered str_pk outer w)))) as Hexit.
    pose proof (Hinner _ (environ_get KRB5_CONFIG)) as Hvar. fold probe in Hvar.
    rewrite Hvar in Hexit.
    destruct (restore_krb5_conf outer (saved outer w) _) as [[[]|e] w3]; cbn [fst] in *.
    + exact Hprobe.
    + by destruct (truthy_opt (saved outer w)).
  - apply Hinner.
  - rewrite with_Krb5ConfContext_environ. by rewrite Hsaved_o.
Qed.

(** X7. Nesting a source without krb5.conf text inside one with it.
    When the inner statement is over the variable is unset, so the rest
    of the outer body runs without the outer source's file; and in a
    process that had no (or an empty) [KRB5_CONFIG] the outer statement
    then ends in [KeyError], whatever the body did. *)
Theorem Krb5ConfContext_nested_blank {A} outer inner (body : M A) w :
  krb5_conf outer ≠ "" → krb5_conf inner = "" →
  truthy_opt (environ w !! KRB5_CONFIG) = false →
  environ (entered str_pk outer w) !! KRB5_CONFIG
    = Some (str_path (conf_path_of str_pk outer w)) ∧
  environ (snd (with_Krb5ConfContext str_pk inner body (entered str_pk outer w)))
    !! KRB5_CONFIG = None ∧
  fst (with_Krb5ConfContext str_pk outer (with_Krb5ConfContext str_pk inner body) w)
    = Raise (KeyError KRB5_CONFIG).
Proof.
  intros Eo Ei Hprev.
  destruct (entered_nonempty outer w Eo) as [Hent_o Hsaved_o].
  assert (Hinner : environ (snd (with_Krb5ConfContext str_pk inner body
                                   (entered str_pk outer w))) !! KRB5_CONFIG = None).
  { rewrite with_Krb5ConfContext_environ.
    by destruct (entered_empty inner (entered str_pk outer w) Ei) as [_ ->]. }
  split_and!; [|exact Hinner|].
  - rewrite Hent_o. cbn. apply lookup_insert_eq.
  - rewrite with_Krb5ConfContext_eq, Hsaved_o.
    pose proof (restore_krb5_conf_result outer (environ w !! KRB5_CONFIG)
                  (snd (with_Krb5ConfContext str_pk inner body (entered str_pk outer w))))
      as Hexit.
    rewrite Hinner, Hprev in Hexit.
    destruct (restore_krb5_conf outer (environ w !! KRB5_CONFIG) _) as [[[]|e] w3];
      cbn [fst] in *; [discriminate|]. by injection Hexit as ->.
Qed.

End ScopeComposition.

Lemma Krb5ConfContext_frame_witness :
  let self := Examples.by_password 1 "[libdefaults]" in
  let w := with_environ (insert "HOME" "/root") Examples.fresh in
  "HOME" ≠ KRB5_CONFIG ∧
  environ (snd (with_Krb5ConfContext pretty self (ret tt) w)) !! "HOME"
  = environ (snd (ret tt (entered pretty self w))) !! "HOME".
Proof.
  cbv zeta. assert (H : "HOME" ≠ KRB5_CONFIG) by discriminate. split; [exact H|].
  exact (proj1 (proj2 (Krb5ConfContext_frame pretty (Examples.by_password 1 "[libdefaults]")
                         (ret tt) (with_environ (insert "HOME" "/root") Examples.fresh)
                         "HOME" H))).
Defined.

Lemma Krb5ConfContext_environ_round_trip_witness :
  let self := Examples.by_password 1 "[libdefaults]" in
  let w := Examples.with_KRB5_CONFIG "/etc/krb5.conf" in
  (krb5_conf self ≠ "" ∧ environ w !! KRB5_CONFIG ≠ Some "") ∧
  environ (snd (with_Krb5ConfContext pretty self (ret tt) w)) = environ w.
Proof.
  cbv zeta.
  assert (H1 : krb5_conf (Examples.by_password 1 "[libdefaults]") ≠ "") by discriminate.
  assert (H2 : environ (Examples.with_KRB5_CONFIG "/etc/krb5.conf") !! KRB5_CONFIG ≠ Some "")
    by (vm_compute; discriminate).
  split; [by split|].
  exact (proj1 (Krb5ConfContext_environ_round_trip pretty
                  (Examples.by_password 1 "[libdefaults]") (ret tt)
                  (Examples.with_KRB5_CONFIG "/etc/krb5.conf") H1 H2 eq_refl)).
Defined.

Lemma Krb5ConfContext_nested_witness :
  let outer := Examples.by_password 1 "[libdefaults]" in
  let inner := Examples.by_password 2 "[realms]" in
  (krb5_conf outer ≠ "" ∧ krb5_conf inner ≠ "") ∧
  fst (with_Krb5ConfContext pretty outer
         (with_Krb5ConfContext pretty inner (environ_get KRB5_CONFIG)) Examples.fresh)
  = Return (Some "/tmp/authentik/sources/kerberos/2/krb5.conf").
Proof.
  cbv zeta.
  assert (H1 : krb5_conf (Examples.by_password 1 "[libdefaults]") ≠ "") by discriminate.
  assert (H2 : krb5_conf (Examples.by_password 2 "[realms]") ≠ "") by discriminate.
  split; [by split|].
  exact (proj1 (Krb5ConfContext_nested pretty (Examples.by_password 1 "[libdefaults]")
                  (Examples.by_password 2 "[realms]") (ret tt) Examples.fresh H1 H2)).
Defined.

Lemma Krb5ConfContext_nested_blank_witness :
  let outer := Examples.by_password 1 "[libdefaults]" in
  let inner := Examples.by_password 2 "" in
  (krb5_conf outer ≠ "" ∧ krb5_conf inner = "" ∧
   truthy_opt (environ Examples.fresh !! KRB5_CONFIG) = false) ∧
  fst (with_Krb5ConfContext pretty outer
         (with_Krb5ConfContext pretty inner (ret tt)) Examples.fresh)
  = Raise (KeyError KRB5_CONFIG).
Proof.
  cbv zeta.
  assert (H1 : krb5_conf (Examples.by_password 1 "[libdefaults]") ≠ "") by discriminate.
  assert (H3 : truthy_opt (environ Examples.fresh !! KRB5_CONFIG) = false)
    by (vm_compute; reflexivity).
  split; [by split_and!|].
  exact (proj2 (proj2 (Krb5ConfContext_nested_blank pretty
                         (Examples.by_password 1 "[libdefaults]")
                         (Examples.by_password 2 "") (ret tt) Examples.fresh
                         H1 eq_refl H3))).
Defined.

(** ** [_kadmin_init] and [connection]: effects *)

Section PoolEffects.

Context {PK : Type} (str_pk : PK → string).
Context (b64decode : string → option (list Byte.byte)).
Implicit Types (self : @KerberosSource PK) (w : World).

Lemma session_by_effects call w :
  environ (snd (session_by call w)) = environ w ∧
  _kadmin_connections (snd (session_by call w)) = _kadmin_connections w ∧
  fs_files (snd (session_by call w)) = fs_files w ∧
  fs_dirs (snd (session_by call w)) = fs_dirs w ∧
  kadmin_log (snd (session_by call w)) = (kadmin_log w ++ [event_at call w])%list.
Proof. rewrite session_by_eq. by destruct (kdc_auth w _ _). Qed.

Lemma _kadmin_init_keeps self w :
  environ (snd (_kadmin_init str_pk b64decode self w)) = environ w ∧
  _kadmin_connections (snd (_kadmin_init str_pk b64decode self w)) = _kadmin_connections w ∧
  fs_files (snd (_kadmin_init str_pk b64decode self w)) = fs_files w.
Proof.
  destruct (_kadmin_init_cases str_pk b64decode self) as [Hn|[(call & _ & Hs)|Ha]].
  - by rewrite Hn.
  - rewrite Hs. by destruct (session_by_effects call w) as (? & ? & ? & _).
  - by rewrite Ha.
Qed.

(** X8. What [_kadmin_init] does to the process, whatever the
    credentials: environment, connection table and files stay as they
    are (no keytab file is ever written), directories are only added,
    and the realm is called at most once. Returning no session leaves
    the world untouched; a returned session is a new object, made by
    the one authentication call just logged; a realm error also leaves
    exactly that one call in the log; any other failure happens before
    the realm is called. *)
Theorem _kadmin_init_effects self w :
  let out := _kadmin_init str_pk b64decode self w in
  environ (snd out) = environ w ∧
  _kadmin_connections (snd out) = _kadmin_connections w ∧
  fs_files (snd out) = fs_files w ∧
  fs_dirs w ⊆ fs_dirs (snd out) ∧
  kadmin_log (snd out) = (kadmin_log w ++ new_events w (snd out))%list ∧
  match fst out with
  | Return None => snd out = w
  | Return (Some kadm) =>
      kadm_id kadm = length (kadmin_log w) ∧
      ∃ call, is_init call = true ∧ new_events w (snd out) = [event_at call w]
  | Raise (KadminError _) =>
      ∃ call, is_init call = true ∧ new_events w (snd out) = [event_at call w]
  | Raise _ => new_events w (snd out) = []
  end.
Proof.
  cbv zeta.
  destruct (_kadmin_init_cases str_pk b64decode self) as [Hn|[(call & Hcall & Hs)|Ha]].
  - rewrite Hn. unfold new_events. cbn. rewrite drop_all, app_nil_r. by split_and!.
  - rewrite Hs. destruct (session_by_effects call w) as (He & Hc & Hf & Hd & Hl).
    pose proof (session_by_new_events call w) as Hnew. fold (event_at call w) in Hnew.
    rewrite He, Hc, Hf, Hd, Hl, Hnew. split_and!; try done.
    rewrite session_by_eq. destruct (kdc_auth w _ _); cbn; eauto.
  - rewrite Ha. unfold new_events. cbn. rewrite drop_all, app_nil_r.
    split_and!; try done. apply union_subseteq_l.
Qed.

Lemma connection_keeps self w :
  environ (snd (connection str_pk b64decode self w)) = environ w ∧
  fs_files (snd (connection str_pk b64decode self w)) = fs_files w ∧
  kdc_principal_exists (snd (connection str_pk b64decode self w)) = kdc_principal_exists w.
Proof.
  destruct (_kadmin_connections w !! str_pk (pk self)) as [cached|] eqn:Hc.
  { by rewrite (connection_hit _ _ _ _ _ Hc). }
  destruct (_kadmin_init_cases str_pk b64decode self) as [Hn|[(call & _ & Hs)|Ha]].
  - by rewrite (connection_miss _ _ _ _ Hc), Hn.
  - rewrite (connection_miss_session _ _ _ _ _ Hc Hs). cbv zeta.
    destruct (kdc_auth w (kadmin_log w) _); [done|].
    by destruct (kdc_auth w (kadmin_log w ++ _)%list _).
  - by rewrite (connection_miss _ _ _ _ Hc), Ha.
Qed.

(** X9. [connection] leaves environment and files alone and calls
    the realm at most twice, with authentication calls only; when the
    source's key is already in the table it calls nothing and changes
    nothing. *)
Theorem connection_effects self w :
  let out := connection str_pk b64decode self w in
  environ (snd out) = environ w ∧
  fs_files (snd out) = fs_files w ∧
  kadmin_log (snd out) = (kadmin_log w ++ new_events w (snd out))%list ∧
  (length (new_events w (snd out)) ≤ 2)%nat ∧
  Forall (fun ev => is_init (ev_call ev) = true) (new_events w (snd out)) ∧
  match _kadmin_connections w !! str_pk (pk self) with
  | Some cached => out = (Return cached, w)
  | None => True
  end.
Proof.
  cbv zeta. destruct (connection_keeps self w) as (He & Hf & _). rewrite He, Hf.
  destruct (_kadmin_connections w !! str_pk (pk self)) as [cached|] eqn:Hc.
  { rewrite (connection_hit _ _ _ _ _ Hc). unfold new_events. cbn.
    rewrite drop_all, app_nil_r. split_and!; try done. cbn. lia. }
  assert (Hnil : ∀ w', kadmin_log w' = kadmin_log w →
            kadmin_log w' = (kadmin_log w ++ new_events w w')%list ∧
            (length (new_events w w') ≤ 2)%nat ∧
            Forall (fun ev => is_init (ev_call ev) = true) (new_events w w')).
  { intros w' Hl. unfold new_events. rewrite Hl, drop_all, app_nil_r.
    split_and!; [done|cbn; lia|constructor]. }
  destruct (_kadmin_init_cases str_pk b64decode self) as [Hn|[(call & Hcall & Hs)|Ha]].
  - rewrite (connection_miss _ _ _ _ Hc), Hn. cbn [snd].
    by destruct (Hnil w eq_refl) as (? & ? & ?).
  - rewrite (connection_miss_session _ _ _ _ _ Hc Hs). cbv zeta. unfold new_events.
    destruct (kdc_auth w (kadmin_log w) _);
      [|destruct (kdc_auth w (kadmin_log w ++ _)%list _)];
      cbn; rewrite <- ?app_assoc, drop_app_length; cbn;
      (split_and!; [done|done|done|lia|repeat constructor; done|done]).
  - rewrite (connection_miss _ _ _ _ Hc), Ha. cbn [snd].
    by destruct (Hnil (with_fs_dirs
      (fun d => d ∪ list_to_set (ancestors [] (scratch_dir_of str_pk self w))) w) eq_refl)
      as (? & ? & ?).
Qed.

(** X10. The table only grows: an entry that is in the table before
    a [connection] call, for whatever source, is there unchanged after
    it. Sessions are never replaced and never dropped. *)
Theorem connection_table_grows self w (key : string) (cached : option KAdmin) :
  _kadmin_connections w !! key = Some cached →
  _kadmin_connections (snd (connection str_pk b64decode self w)) !! key = Some cached.
Proof.
  intros Hk.
  destruct (_kadmin_connections w !! str_pk (pk self)) as [mine|] eqn:Hc.
  { by rewrite (connection_hit _ _ _ _ _ Hc). }
  destruct (_kadmin_init_cases str_pk b64decode self) as [Hn|[(call & _ & Hs)|Ha]].
  - by rewrite (connection_miss _ _ _ _ Hc), Hn.
  - rewrite (connection_miss_session _ _ _ _ _ Hc Hs). cbv zeta.
    destruct (kdc_auth w (kadmin_log w) _); [done|].
    destruct (kdc_auth w (kadmin_log w ++ _)%list _); [done|].
    cbn. rewrite lookup_insert_ne; [done|]. intros <-. congruence.
  - by rewrite (connection_miss _ _ _ _ Hc), Ha.
Qed.

(** X11. [None] is never stored: if every key of the table holds a
    session before a [connection] call, the same is true after it; and
    then a call that returns no session has left the source's key
    absent, so the next call resolves the credentials afresh. *)
Theorem connection_never_stores_None self w :
  cache_no_none w →
  cache_no_none (snd (connection str_pk b64decode self w)) ∧
  (fst (connection str_pk b64decode self w) = Return None →
   _kadmin_connections (snd (connection str_pk b64decode self w)) !! str_pk (pk self) = None).
Proof.
  intros Hnn.
  destruct (_kadmin_connections w !! str_pk (pk self)) as [mine|] eqn:Hc.
  { rewrite (connection_hit _ _ _ _ _ Hc). cbn. split; [done|].
    intros [= ->]. by destruct (Hnn _ _ Hc). }
  destruct (_kadmin_init_cases str_pk b64decode self) as [Hn|[(call & _ & Hs)|Ha]].
  - by rewrite (connection_miss _ _ _ _ Hc), Hn.
  - rewrite (connection_miss_session _ _ _ _ _ Hc Hs). cbv zeta.
    destruct (kdc_auth w (kadmin_log w) _); [done|].
    destruct (kdc_auth w (kadmin_log w ++ _)%list _); [done|].
    cbn [fst snd]. split; [|done]. unfold cache_no_none.
    cbn [_kadmin_connections with_connections with_kadmin_log]. intros key cached.
    destruct (decide (str_pk (pk self) = key)) as [<-|Hne].
    + rewrite lookup_insert_eq. intros [= <-]. eauto.
    + rewrite lookup_insert_ne by done. apply Hnn.
  - by rewrite (connection_miss _ _ _ _ Hc), Ha.
Qed.

(** X12. A session that [connection] returns is the one the table
    holds under the source's key afterwards. *)
Theorem connection_returns_stored self w kadm :
  fst (connection str_pk b64decode self w) = Return (Some kadm) →
  _kadmin_connections (snd (connection str_pk b64decode self w)) !! str_pk (pk self)
    = Some (Some kadm).
Proof.
  intros Hret.
  destruct (connection_Some_inv _ _ _ _ _ Hret) as [[Hc ->]|(_ & _ & -> & _)]; [done|].
  apply lookup_insert_eq.
Qed.

(** X13. Errors of the first credential resolution pass through
    unchanged: with nothing cached, if [_kadmin_init] raises,
    [connection] raises the same exception in the same world, nothing
    is stored, and the next call starts from scratch. *)
Theorem connection_first_failure self w (e : Exn) :
  _kadmin_connections w !! str_pk (pk self) = None →
  fst (_kadmin_init str_pk b64decode self w) = Raise e →
  connection str_pk b64decode self w = (Raise e, snd (_kadmin_init str_pk b64decode self w)) ∧
  _kadmin_connections (snd (connection str_pk b64decode self w)) !! str_pk (pk self) = None.
Proof.
  intros Hc Hraise. rewrite (connection_miss _ _ _ _ Hc).
  destruct (_kadmin_init_keeps self w) as (_ & Hcache & _).
  destruct (_kadmin_init str_pk b64decode self w) as [[r|e'] w1]; cbn [fst snd] in *;
    [discriminate|]. injection Hraise as ->. split; [done|]. cbn. by rewrite Hcache.
Qed.

End PoolEffects.

Lemma connection_table_grows_witness :
  let a := Examples.by_password 1 "" in
  let b := Examples.by_password 2 "" in
  let w := snd (connection pretty Examples.b64decode a Examples.fresh) in
  _kadmin_connections w !! "1" = Some (Some {| kadm_id := 1 |}) ∧
  _kadmin_connections (snd (connection pretty Examples.b64decode b w)) !! "1"
  = Some (Some {| kadm_id := 1 |}).
Proof.
  cbv zeta.
  assert (H : _kadmin_connections
                (snd (connection pretty Examples.b64decode (Examples.by_password 1 "")
                        Examples.fresh)) !! "1" = Some (Some {| kadm_id := 1 |}))
    by (vm_compute; reflexivity).
  split; [exact H|].
  exact (connection_table_grows pretty Examples.b64decode (Examples.by_password 2 "") _ _ _ H).
Defined.

Lemma connection_never_stores_None_witness :
  cache_no_none Examples.fresh ∧
  cache_no_none (snd (connection pretty Examples.b64decode (Examples.by_password 1 "")
                        Examples.fresh)).
Proof.
  assert (H : cache_no_none Examples.fresh).
  { intros key cached. cbn. by rewrite lookup_empty. }
  split; [exact H|].
  exact (proj1 (connection_never_stores_None pretty Examples.b64decode
                  (Examples.by_password 1 "") Examples.fresh H)).
Defined.

Lemma connection_returns_stored_witness :
  let out := connection pretty Examples.b64decode (Examples.by_password 1 "") Examples.fresh in
  fst out = Return (Some {| kadm_id := 1 |}) ∧
  _kadmin_connections (snd out) !! pretty 1%Z = Some (Some {| kadm_id := 1 |}).
Proof.
  cbv zeta.
  assert (H : fst (connection pretty Examples.b64decode (Examples.by_password 1 "")
                     Examples.fresh) = Return (Some {| kadm_id := 1 |}))
    by (vm_compute; reflexivity).
  split; [exact H|].
  exact (connection_returns_stored pretty Examples.b64decode _ _ _ H).
Defined.

Lemma connection_first_failure_witness :
  let self := Examples.by_password 1 "" in
  (_kadmin_connections Examples.realm_down !! pretty (pk self) = None ∧
   fst (_kadmin_init pretty Examples.b64decode self Examples.realm_down)
   = Raise (KadminError "Cannot contact any KDC")) ∧
  fst (connection pretty Examples.b64decode self Examples.realm_down)
  = Raise (KadminError "Cannot contact any KDC").
Proof.
  cbv zeta.
  assert (H0 : _kadmin_connections Examples.realm_down
               !! pretty (pk (Examples.by_password 1 "")) = None)
    by (vm_compute; reflexivity).
  assert (H1 : fst (_kadmin_init pretty Examples.b64decode (Examples.by_password 1 "")
                      Examples.realm_down) = Raise (KadminError "Cannot contact any KDC"))
    by (vm_compute; reflexivity).
  split; [by split|].
  exact (f_equal fst (proj1 (connection_first_failure pretty Examples.b64decode
                               (Examples.by_password 1 "") Examples.realm_down _ H0 H1))).
Defined.

(** ** [check_connection]: reports and effects *)

Section EngineEffects.

Context {PK : Type} (str_pk : PK → string).
Context (b64decode : string → option (list Byte.byte)).
Implicit Types (self : @KerberosSource PK) (w : World).

Lemma entered_kdc_principal_exists self w :
  kdc_principal_exists (entered str_pk self w) = kdc_principal_exists w.
Proof. unfold entered. by destruct (truthy (krb5_conf self)). Qed.

(** X14. Every report [check_connection] returns has one of two
    shapes: a lone "status" entry, or "status" = "ok" together with a
    boolean "principal_exists". And whatever makes it end without a
    report, it is not a [kadmin.Error]: no error of the realm leaves
    the check. *)
Theorem check_connection_report_shape self w :
  match fst (check_connection str_pk b64decode self w) with
  | Return report =>
      (∃ msg, report = {[ "status" := VStr msg ]}) ∨
      (∃ found, report = {[ "principal_exists" := VBool found; "status" := VStr "ok" ]})
  | Raise e => ∀ msg, e ≠ KadminError msg
  end.
Proof.
  unfold check_connection. destruct (sync_users self); cbn [negb]; [|cbn; eauto].
  rewrite with_Krb5ConfContext_eq.
  match goal with
  | |- context [restore_krb5_conf self ?prev ?w2] =>
      pose proof (restore_krb5_conf_result self prev w2) as Hexit;
      destruct (restore_krb5_conf self prev w2) as [[[]|e] w3]
  end; cbn [fst] in *.
  - unfold try_except_kadmin, bind.
    destruct (connection str_pk b64decode self (entered str_pk self w))
      as [[[kadm|]|[]] w2]; cbn [fst]; try discriminate.
    + unfold principal_exists. destruct (kdc_principal_exists w2 _ _); cbn.
      * left. eexists. apply insert_singleton_eq.
      * right. eauto.
    + left. eexists. apply insert_singleton_eq.
    + left. eexists. apply insert_singleton_eq.
  - destruct (truthy_opt _); [discriminate|].
    destruct (environ _ !! KRB5_CONFIG); [discriminate|]. injection Hexit as ->. discriminate.
Qed.

(** X15. The health check of a source whose session is cached, with
    a scope whose exit goes through: the realm is asked exactly one
    question, [principal_exists] for the sync principal on the cached
    session, with [KRB5_CONFIG] as the scope set it; a boolean answer
    is reported next to status "ok", an error becomes the status. *)
Theorem check_connection_cached_session self w kadm :
  sync_users self = true →
  krb5_conf self ≠ "" ∨ is_Some (environ w !! KRB5_CONFIG) →
  _kadmin_connections w !! str_pk (pk self) = Some (Some kadm) →
  let out := check_connection str_pk b64decode self w in
  let ev := exists_event kadm (sync_principal self) (entered str_pk self w) in
  new_events w (snd out) = [ev] ∧
  (krb5_conf self ≠ "" →
   ev_krb5_config ev = Some (str_path (conf_path_of str_pk self w))) ∧
  fst out =
    match kdc_principal_exists w (kadmin_log w) ev with
    | inr found => Return {[ "principal_exists" := VBool found; "status" := VStr "ok" ]}
    | inl msg => Return {[ "status" := VStr msg ]}
    end.
Proof.
  intros Esync Hok Hc. cbv zeta. unfold check_connection. rewrite Esync. cbn [negb].
  rewrite with_Krb5ConfContext_eq.
  assert (Hc' : _kadmin_connections (entered str_pk self w) !! str_pk (pk self)
                = Some (Some kadm)) by (by rewrite entered_connections).
  set (w1 := entered str_pk self w) in *.
  set (ev := exists_event kadm (sync_principal self) w1).
  match goal with
  | |- context [try_except_kadmin ?body ?handler] =>
      assert (Hbody : try_except_kadmin body handler w1 =
        (match kdc_principal_exists w (kadmin_log w) ev with
         | inr found => Return {[ "principal_exists" := VBool found; "status" := VStr "ok" ]}
         | inl msg => Return {[ "status" := VStr msg ]}
         end, with_kadmin_log (fun l => (l ++ [ev])%list) w1))
  end.
  { unfold try_except_kadmin, bind. rewrite (connection_hit _ _ _ _ _ Hc').
    unfold principal_exists. fold (exists_event kadm (sync_principal self) w1). fold ev.
    unfold w1 at 1 2. rewrite entered_kdc_principal_exists, entered_kadmin_log.
    destruct (kdc_principal_exists w (kadmin_log w) ev); cbn; [|done].
    by rewrite insert_singleton_eq. }
  rewrite Hbody. cbn [fst snd].
  pose proof (exit_after_entry_ok str_pk self w
                (with_kadmin_log (fun l => (l ++ [ev])%list) w1) eq_refl Hok) as Hexit.
  pose proof (restore_krb5_conf_frame self (saved self w)
                (with_kadmin_log (fun l => (l ++ [ev])%list) w1)) as [_ Hlog].
  destruct (restore_krb5_conf self (saved self w) _) as [[[]|e] w3];
    cbn [fst snd] in *; [|discriminate].
  split_and!; [|intros E|done].
  - unfold new_events. rewrite Hlog. cbn. unfold w1.
    rewrite entered_kadmin_log. apply drop_app_length.
  - unfold ev, exists_event, w1. cbn.
    destruct (entered_nonempty str_pk self w E) as [-> _]. cbn. apply lookup_insert_eq.
Qed.

(** X16. What the health check of a sync-enabled source leaves in
    the environment, however it ends: [KRB5_CONFIG] is unset for a
    source without krb5.conf text, and otherwise holds the non-empty
    value from before, or nothing; every other variable is as it was. *)
Theorem check_connection_environ self w (key : string) :
  sync_users self = true → key ≠ KRB5_CONFIG →
  let out := check_connection str_pk b64decode self w in
  environ (snd out) !! KRB5_CONFIG =
    (if decide (krb5_conf self = "") then None else restored (environ w !! KRB5_CONFIG)) ∧
  environ (snd out) !! key = environ w !! key.
Proof.
  intros Esync Hkey. cbv zeta. unfold check_connection. rewrite Esync. cbn [negb]. split.
  - rewrite with_Krb5ConfContext_environ. unfold saved.
    destruct (decide (krb5_conf self = "")) as [->|E]; [done|].
    apply truthy_true in E. by rewrite E.
  - match goal with
    | |- context [with_Krb5ConfContext str_pk self ?body w] =>
        destruct (with_Krb5ConfContext_keeps str_pk self body w key Hkey)
          as [(Hin & _) (Hout & _)]; rewrite Hout, <- Hin;
        set (w1 := entered str_pk self w)
    end.
    unfold try_except_kadmin, bind.
    destruct (connection_keeps str_pk b64decode self w1) as (He & _).
    destruct (connection str_pk b64decode self w1) as [[[kadm|]|[]] w2];
      cbn [snd] in *; try (by cbn; rewrite He).
    unfold principal_exists. destruct (kdc_principal_exists w2 _ _); cbn; by rewrite He.
Qed.

(** X17. A realm error met while opening the connection becomes the
    report: when [connection] raises [kadmin.Error(msg)] inside the
    scope and the scope's exit goes through, the check returns exactly
    {"status": msg}. *)
Theorem check_connection_status_is_error_text self w msg :
  sync_users self = true →
  krb5_conf self ≠ "" ∨ is_Some (environ w !! KRB5_CONFIG) →
  fst (connection str_pk b64decode self (entered str_pk self w)) = Raise (KadminError msg) →
  fst (check_connection str_pk b64decode self w) = Return {[ "status" := VStr msg ]}.
Proof.
  intros Esync Hok Hconn.
  apply check_connection_reports_kadmin_error; try done.
  by destruct (connection_keeps str_pk b64decode self (entered str_pk self w)) as (-> & _).
Qed.

End EngineEffects.

Lemma check_connection_cached_session_witness :
  let self := Examples.by_password 9 "[libdefaults]" in
  let w := snd (check_connection pretty Examples.b64decode self Examples.fresh) in
  (sync_users self = true ∧ krb5_conf self ≠ "" ∧
   _kadmin_connections w !! pretty (pk self) = Some (Some {| kadm_id := 1 |})) ∧
  fst (check_connection pretty Examples.b64decode self w)
  = Return {[ "principal_exists" := VBool true; "status" := VStr "ok" ]}.
Proof.
  cbv zeta.
  assert (H2 : krb5_conf (Examples.by_password 9 "[libdefaults]") ≠ "") by discriminate.
  assert (H3 : _kadmin_connections
                 (snd (check_connection pretty Examples.b64decode
                         (Examples.by_password 9 "[libdefaults]") Examples.fresh))
               !! pretty (pk (Examples.by_password 9 "[libdefaults]"))
               = Some (Some {| kadm_id := 1 |})) by (vm_compute; reflexivity).
  split; [by split_and!|].
  rewrite (proj2 (proj2 (check_connection_cached_session pretty Examples.b64decode
                           (Examples.by_password 9 "[libdefaults]") _ _
                           eq_refl (or_introl H2) H3))).
  vm_compute. reflexivity.
Defined.

Lemma check_connection_environ_witness :
  let self := Examples.by_password 1 "[libdefaults]" in
  let w := with_environ (insert "HOME" "/root") Examples.fresh in
  (sync_users self = true ∧ "HOME" ≠ KRB5_CONFIG) ∧
  environ (snd (check_connection pretty Examples.b64decode self w)) !! "HOME"
  = environ w !! "HOME".
Proof.
  cbv zeta. assert (H : "HOME" ≠ KRB5_CONFIG) by discriminate. split; [by split|].
  exact (proj2 (check_connection_environ pretty Examples.b64decode
                  (Examples.by_password 1 "[libdefaults]")
                  (with_environ (insert "HOME" "/root") Examples.fresh) "HOME" eq_refl H)).
Defined.

Lemma check_connection_status_is_error_text_witness :
  let self := Examples.by_password 1 "" in
  let w := Examples.realm_down in
  (sync_users self = true ∧ is_Some (environ w !! KRB5_CONFIG) ∧
   fst (connection pretty Examples.b64decode self (entered pretty self w))
   = Raise (KadminError "Cannot contact any KDC")) ∧
  fst (check_connection pretty Examples.b64decode self w)
  = Return {[ "status" := VStr "Cannot contact any KDC" ]}.
Proof.
  cbv zeta.
  assert (H2 : is_Some (environ Examples.realm_down !! KRB5_CONFIG))
    by (exists "/etc/krb5.conf"; vm_compute; reflexivity).
  assert (H3 : fst (connection pretty Examples.b64decode (Examples.by_password 1 "")
                      (entered pretty (Examples.by_password 1 "") Examples.realm_down))
               = Raise (KadminError "Cannot contact any KDC")) by (vm_compute; reflexivity).
  split; [by split_and!|].
  exact (check_connection_status_is_error_text pretty Examples.b64decode
           (Examples.by_password 1 "") Examples.realm_down _ eq_refl (or_intror H2) H3).
Defined.

(** ** [sync_lock]: names and bounds *)

Section LockNames.

Context {PK : Type}.
Implicit Types (self : @KerberosSource PK) (w : World).

(** X18. Within one tenant the lock name identifies the slug: two
    locks, built in any two processes of the tenant whatever their
    configuration, have the same name exactly when the two sources have
    the same slug. *)
Theorem sync_lock_name_identifies_slug self1 self2 w1 w2 (lock1 lock2 : Lock) :
  schema_name w1 = schema_name w2 →
  fst (sync_lock self1 w1) = Return lock1 →
  fst (sync_lock self2 w2) = Return lock2 →
  lock_name lock1 = lock_name lock2 ↔ slug self1 = slug self2.
Proof.
  rewrite !sync_lock_eq. cbn. intros -> [= <-] [= <-]. cbn. split.
  - intros Heq. by do 3 apply String.app_inj in Heq.
  - by intros ->.
Qed.

(** X19. Across tenants the name does not identify the pair: schema
    and slug are joined by a hyphen, so a source with slug [a-s] in
    tenant [t] and a source with slug [s] in tenant [t-a] get the same
    lock name. *)
Theorem sync_lock_name_hyphen_collision self1 self2 w1 w2 (a : string)
    (lock1 lock2 : Lock) :
  slug self1 = a +:+ "-" +:+ slug self2 →
  schema_name w2 = schema_name w1 +:+ "-" +:+ a →
  fst (sync_lock self1 w1) = Return lock1 →
  fst (sync_lock self2 w2) = Return lock2 →
  lock_name lock1 = lock_name lock2.
Proof.
  rewrite !sync_lock_eq. cbn. intros -> -> [= <-] [= <-]. cbn.
  f_equal. by rewrite !str_app_assoc.
Qed.

(** X20. The timeout has the sign of the configured hours: it is
    positive only for a positive [kerberos.task_timeout_hours], zero
    for zero and negative for a negative value; nothing clamps it. *)
Theorem sync_lock_timeout_sign self w (lock : Lock) :
  fst (sync_lock self w) = Return lock →
  let hours := CONFIG_get_int w "kerberos.task_timeout_hours" in
  (0 < lock_timeout lock ↔ 0 < hours)%Z ∧
  (lock_timeout lock = 0 ↔ hours = 0)%Z ∧
  (lock_timeout lock < 0 ↔ hours < 0)%Z.
Proof. rewrite sync_lock_eq. cbn. intros [= <-]. cbn. lia. Qed.

End LockNames.

Lemma sync_lock_name_identifies_slug_witness :
  let a := Examples.by_password 1 "" in
  let b := Examples.by_password 2 "" in
  let lock1 := {| lock_name := "goauthentik.io/sources/kerberos/sync/public-krb-1";
                  lock_timeout := 21600 |} in
  let lock2 := {| lock_name := "goauthentik.io/sources/kerberos/sync/public-krb-2";
                  lock_timeout := 21600 |} in
  (schema_name Examples.fresh = schema_name Examples.realm_down ∧
   fst (sync_lock a Examples.fresh) = Return lock1 ∧
   fst (sync_lock b Examples.realm_down) = Return lock2) ∧
  (lock_name lock1 = lock_name lock2 ↔ slug a = slug b).
Proof.
  cbv zeta. split; [by split_and!; vm_compute|].
  apply (sync_lock_name_identifies_slug (Examples.by_password 1 "")
           (Examples.by_password 2 "") Examples.fresh Examples.realm_down);
    vm_compute; reflexivity.
Defined.

Lemma sync_lock_name_hyphen_collision_witness :
  let lock := {| lock_name := "goauthentik.io/sources/kerberos/sync/public-eu-krb";
                 lock_timeout := 21600 |} in
  (slug (slugged "eu-krb") = "eu" +:+ "-" +:+ slug (slugged "krb") ∧
   schema_name (tenant "public-eu") = schema_name (tenant "public") +:+ "-" +:+ "eu" ∧
   fst (sync_lock (slugged "eu-krb") (tenant "public")) = Return lock ∧
   fst (sync_lock (slugged "krb") (tenant "public-eu")) = Return lock) ∧
  lock_name lock = lock_name lock.
Proof.
  cbv zeta. split; [by split_and!; vm_compute|].
  apply (sync_lock_name_hyphen_collision (slugged "eu-krb") (slugged "krb")
           (tenant "public") (tenant "public-eu") "eu"); vm_compute; reflexivity.
Defined.

Lemma sync_lock_timeout_sign_witness :
  let lock := {| lock_name := "goauthentik.io/sources/kerberos/sync/public-krb";
                 lock_timeout := 21600 |} in
  fst (sync_lock (slugged "krb") (tenant "public")) = Return lock ∧
  (0 < lock_timeout lock ↔
   0 < CONFIG_get_int (tenant "public") "kerberos.task_timeout_hours")%Z.
Proof.
  cbv zeta.
  assert (H : fst (sync_lock (slugged "krb") (tenant "public"))
              = Return {| lock_name := "goauthentik.io/sources/kerberos/sync/public-krb";
                          lock_timeout := 21600 |}) by (vm_compute; reflexivity).
  split; [exact H|].
  exact (proj1 (sync_lock_timeout_sign (slugged "krb") (tenant "public") _ H)).
Defined.

(** ** The table across sources *)

Section TableOwnership.

Context {PK : Type} (str_pk : PK → string).
Context (b64decode : string → option (list Byte.byte)).
Implicit Types (self : @KerberosSource PK) (w : World).

(** X21. [connection] touches no key but the source's own: under any
    other key the table reads the same before and after the call,
    whether or not there is an entry. *)
Theorem connection_other_keys self w (key : string) :
  key ≠ str_pk (pk self) →
  _kadmin_connections (snd (connection str_pk b64decode self w)) !! key
  = _kadmin_connections w !! key.
Proof.
  intros Hkey.
  destruct (_kadmin_connections w !! str_pk (pk self)) as [mine|] eqn:Hc.
  { by rewrite (connection_hit _ _ _ _ _ Hc). }
  destruct (_kadmin_init_cases str_pk b64decode self) as [Hn|[(call & _ & Hs)|Ha]].
  - by rewrite (connection_miss _ _ _ _ Hc), Hn.
  - rewrite (connection_miss_session _ _ _ _ _ Hc Hs). cbv zeta.
    destruct (kdc_auth w (kadmin_log w) _); [done|].
    destruct (kdc_auth w (kadmin_log w ++ _)%list _); [done|].
    cbn. by rewrite lookup_insert_ne.
  - by rewrite (connection_miss _ _ _ _ Hc), Ha.
Qed.

(** X22. The health check changes the table only through its one
    [connection] call: afterwards the table is the one that call left
    when made at scope entry, so other sources' keys read as before and
    no entry is ever removed, also when the check ends in an error. *)
Theorem check_connection_table self w :
  sync_users self = true →
  _kadmin_connections (snd (check_connection str_pk b64decode self w))
  = _kadmin_connections
      (snd (connection str_pk b64decode self (entered str_pk self w))).
Proof.
  intros Esync. unfold check_connection. rewrite Esync. cbn [negb].
  rewrite with_Krb5ConfContext_eq.
  match goal with
  | |- context [restore_krb5_conf self ?prev (snd ?body)] =>
      pose proof (restore_krb5_conf_frame self prev (snd body)) as [Hc _];
      destruct (restore_krb5_conf self prev (snd body)) as [[[]|e] w3]; cbn [snd] in *;
      rewrite Hc
  end.
  all: unfold try_except_kadmin, bind;
    destruct (connection str_pk b64decode self (entered str_pk self w))
      as [[[kadm|]|[]] w2]; cbn [snd]; try done;
    unfold principal_exists; by destruct (kdc_principal_exists w2 _ _).
Qed.

End TableOwnership.

Lemma connection_other_keys_witness :
  let a := Examples.by_password 1 "" in
  let b := Examples.by_password 2 "" in
  let w := snd (connection pretty Examples.b64decode a Examples.fresh) in
  "1" ≠ pretty (pk b) ∧
  _kadmin_connections (snd (connection pretty Examples.b64decode b w)) !! "1"
  = _kadmin_connections w !! "1".
Proof.
  cbv zeta.
  assert (H : "1" ≠ pretty (pk (Examples.by_password 2 ""))) by (vm_compute; discriminate).
  split; [exact H|].
  exact (connection_other_keys pretty Examples.b64decode (Examples.by_password 2 "") _ "1" H).
Defined.

Lemma check_connection_table_witness :
  let self := Examples.by_password 1 "" in
  sync_users self = true ∧
  _kadmin_connections (snd (check_connection pretty Examples.b64decode self Examples.fresh))
  = _kadmin_connections
      (snd (connection pretty Examples.b64decode self (entered pretty self Examples.fresh))).
Proof.
  cbv zeta. split; [reflexivity|].
  exact (check_connection_table pretty Examples.b64decode (Examples.by_password 1 "")
           Examples.fresh eq_refl).
Defined.
